(** * gocsp: OCSP request and response messages (RFC 6960)

    A shallow embedding of the Go package [gocsp] (request.go, response.go,
    ocsp.go): the message records, the nonce and status accessors, the status
    normalisation done on the encode path, and the thin wrappers around
    [encoding/asn1]. *)

From Stdlib Require Import ZArith List Bool Ascii String Lia.
From stdpp Require Import base option list.
Import ListNotations.
Local Open Scope Z_scope.

(** ** Go values used by the package *)

(** A Go [[]byte].  [None] is the nil slice, [Some l] a non-nil slice holding
    [l]: the accessors return nil to report absence, so the two are kept
    apart.  Slices of structs are only ranged over, indexed and appended to
    by this package; they are lists, nil and empty alike being [[]]. *)
Definition bytes : Type := option (list Byte.byte).

Definition len_bytes (b : bytes) : nat :=
  match b with
  | None => 0%nat
  | Some l => length l
  end.

(** The bytes a slice holds, and [append(b, s...)]. *)
Definition contents (b : bytes) : list Byte.byte := default [] b.

Definition append (b : bytes) (s : list Byte.byte) : bytes :=
  Some (contents b ++ s).

(** What a call ends in when it does not return: the run-time panic of an
    index expression [s[i]] with [i] outside [0 <= i < len(s)]. *)
Inductive panic : Type :=
| index_out_of_range (index : Z) (length : nat).

Inductive outcome (A : Type) : Type :=
| Returns (a : A)
| Panics (p : panic).
Arguments Returns {A} a.
Arguments Panics {A} p.

(** A method with a pointer receiver of type [S]: it reads and writes the
    pointee and returns an [A], or panics. *)
Definition method (S A : Type) : Type := S -> outcome (A * S).

#[export] Instance method_ret {S} : MRet (method S) :=
  fun A a s => Returns (a, s).

#[export] Instance method_bind {S} : MBind (method S) :=
  fun A B k m s =>
    match m s with
    | Returns (a, s') => k a s'
    | Panics p => Panics p
    end.

(** Reading the pointee. *)
Definition get {S} : method S S := fun s => Returns (s, s).

(** The index expression [s[i]] on a slice, [i] a Go [int]. *)
Definition slice_at {A} (s : list A) (i : Z) : outcome A :=
  if (i <? 0) || (Z.of_nat (length s) <=? i) then
    Panics (index_out_of_range i (length s))
  else
    match s !! Z.to_nat i with
    | Some a => Returns a
    | None => Panics (index_out_of_range i (length s))
    end.

(** The assignment [s[i] = a]. *)
Definition slice_assign {A} (s : list A) (i : Z) (a : A) : outcome (list A) :=
  if (i <? 0) || (Z.of_nat (length s) <=? i) then
    Panics (index_out_of_range i (length s))
  else Returns (<[Z.to_nat i := a]> s).

(** Go's error values: [errors.New(msg)], and whatever [encoding/asn1]
    reports. *)
Inductive error : Type :=
| errors_New (msg : string)
| asn1_error (msg : string).

(** A Go result pair [(v, err)]: [Ok v] is [(v, nil)], [Err e] is
    [(nil, e)]. *)
Inductive result (A : Type) : Type :=
| Ok (v : A)
| Err (e : error).
Arguments Ok {A} v.
Arguments Err {A} e.

(** ** Library types: time, encoding/asn1, crypto/x509/pkix *)

Module time.

Record Location : Type := { zone_name : string; zone_offset : Z }.

(** A wall-clock [time.Time]: the instant, as seconds and nanoseconds
    since January 1, year 1, 00:00:00 UTC, and the location pointer
    ([None] is nil, which means UTC).  The monotonic clock reading a Go
    time may carry is left out: [IsZero] does not look at it, nor does
    [Equal] when one side is [time.Time{}]. *)
Record Time : Type := { sec : Z; nsec : Z; loc : option Location }.

(** The zero value [time.Time{}]. *)
Definition zero : Time := {| sec := 0; nsec := 0; loc := None |}.

(** [t.IsZero()]: the instant is the zero instant. *)
Definition IsZero (t : Time) : bool := (sec t =? 0) && (nsec t =? 0).

(** [t.Equal(u)]: the same instant, whatever the locations. *)
Definition Equal (t u : Time) : bool :=
  (sec t =? sec u) && (nsec t =? nsec u).

End time.

Module asn1.

(** [asn1.ObjectIdentifier], a [[]int]. *)
Definition ObjectIdentifier : Type := list Z.

(** [oi.Equal(other)]: same length and same arcs. *)
Fixpoint Equal (oi other : ObjectIdentifier) : bool :=
  match oi, other with
  | [], [] => true
  | a :: oi', b :: other' => (a =? b) && Equal oi' other'
  | _, _ => false
  end.

Definition Enumerated : Type := Z.
Definition Flag : Type := bool.

Record BitString : Type := { BitString_Bytes : bytes; BitLength : Z }.

Record RawValue : Type := {
  Class : Z;
  Tag : Z;
  IsCompound : bool;
  Bytes : bytes;
  FullBytes : bytes
}.

Definition RawValue_zero : RawValue :=
  {| Class := 0; Tag := 0; IsCompound := false; Bytes := None; FullBytes := None |}.

Definition BitString_zero : BitString :=
  {| BitString_Bytes := None; BitLength := 0 |}.

(** [asn1.Marshal(val)] and [asn1.Unmarshal(b, &val)] at the type of [val].
    The library works by reflection on any value; the package calls it at
    its three top-level message types, each of which gets an instance.
    [Unmarshal] returns the decoded value with the bytes left over. *)
Class Codec (T : Type) : Type := {
  Marshal : T -> result bytes;
  Unmarshal : bytes -> result (T * bytes)
}.

End asn1.

Module pkix.

Record AlgorithmIdentifier : Type := {
  Algorithm : asn1.ObjectIdentifier;
  Parameters : asn1.RawValue        (* asn1:"optional" *)
}.

Record Extension : Type := {
  Id : asn1.ObjectIdentifier;
  Critical : bool;                  (* asn1:"optional" *)
  Value : bytes
}.

(** [AttributeTypeAndValue]; the value, an [interface{}] in Go, is kept in
    its encoded form. *)
Record AttributeTypeAndValue : Type := {
  Type_ : asn1.ObjectIdentifier;
  AttributeValue : asn1.RawValue
}.

Definition RelativeDistinguishedNameSET : Type := list AttributeTypeAndValue.
Definition RDNSequence : Type := list RelativeDistinguishedNameSET.

Definition AlgorithmIdentifier_zero : AlgorithmIdentifier :=
  {| Algorithm := []; Parameters := asn1.RawValue_zero |}.

End pkix.

(** ** ocsp.go *)

Record certID : Type := {
  HashAlgorithm : pkix.AlgorithmIdentifier;
  NameHash : bytes;
  IssuerKeyHash : bytes;
  SerialNumber : option Z             (* *big.Int; None is the nil pointer *)
}.

Definition certID_zero : certID :=
  {| HashAlgorithm := pkix.AlgorithmIdentifier_zero;
     NameHash := None; IssuerKeyHash := None; SerialNumber := None |}.

(** ** request.go *)

Definition OidOcspNonce : asn1.ObjectIdentifier := [1; 3; 6; 1; 5; 5; 7; 48; 1; 2].

Record signature : Type := {
  signature_SignatureAlgorithm : pkix.AlgorithmIdentifier;
  signature_Signature : asn1.BitString;
  signature_Certs : list (list asn1.RawValue)  (* explicit,tag:0,optional *)
}.

Record request : Type := {
  ReqCert : certID;
  SingleRequestExtensions : list pkix.Extension  (* explicit,tag:0,optional *)
}.

Record tbsRequest : Type := {
  tbsRequest_Version : Z;                   (* default:0,explicit,tag:0,optional *)
  RequestorName : pkix.RDNSequence;         (* explicit,tag:1,optional *)
  RequestList : list request;
  ExtensionList : list pkix.Extension       (* explicit,tag:2,optional *)
}.

Record OcspRequest : Type := {
  TBSRequest : tbsRequest;
  OcspRequest_Signature : signature         (* explicit,tag:0,optional *)
}.

(** The [range] loop of [Nonce], [GetNonce]: the value of the first extension
    whose [Id] equals [OidOcspNonce]; falling off the loop gives nil. *)
Fixpoint range_find_nonce (extList : list pkix.Extension) : bytes :=
  match extList with
  | [] => None
  | extension :: rest =>
      if asn1.Equal (pkix.Id extension) OidOcspNonce then pkix.Value extension
      else range_find_nonce rest
  end.

(** The test of these loops, for statements about them. *)
Definition is_nonce (extension : pkix.Extension) : bool :=
  asn1.Equal (pkix.Id extension) OidOcspNonce.

(** [func (r *OcspRequest) Nonce() []byte] *)
Definition Nonce : method OcspRequest bytes :=
  r ← get;
  mret (range_find_nonce (ExtensionList (TBSRequest r))).

(** ** response.go *)

Definition OidOcspBasicResponse : asn1.ObjectIdentifier :=
  [1; 3; 6; 1; 5; 5; 7; 48; 1; 1].

Record responseBytes : Type := {
  ResponseType : asn1.ObjectIdentifier;
  Response : bytes
}.

Record OcspResponse : Type := {
  ResponseStatus : asn1.Enumerated;
  ResponseBytes : responseBytes             (* explicit,tag:0,optional *)
}.

Record RevokedInfo : Type := {
  RevocationTime : time.Time;               (* generalized *)
  RevocationReason : asn1.Enumerated        (* explicit,tag:0,optional *)
}.

Record singleResponse : Type := {
  CertID : certID;
  Good : asn1.Flag;                         (* tag:0,optional *)
  Revoked : RevokedInfo;                    (* tag:1,optional *)
  Unknown : asn1.Flag;                      (* tag:2,optional *)
  ThisUpdate : time.Time;                   (* generalized *)
  NextUpdate : time.Time;                   (* generalized,explicit,tag:0,optional *)
  SingleExtensions : list pkix.Extension    (* explicit,tag:1,optional *)
}.

Record responseData : Type := {
  responseData_Version : Z;                 (* default:0,explicit,tag:0,optional *)
  ResponderID : asn1.RawValue;
  ProducedAt : time.Time;                   (* generalized *)
  Responses : list singleResponse;
  ResponseExtensions : list pkix.Extension  (* explicit,tag:1,optional *)
}.

Record BasicResponse : Type := {
  TBSResponseData : responseData;
  BasicResponse_SignatureAlgorithm : pkix.AlgorithmIdentifier;
  BasicResponse_Signature : asn1.BitString;
  BasicResponse_Certs : list asn1.RawValue  (* explicit,tag:0,optional *)
}.

(** Zero values, [RevokedInfo{}] and [var s singleResponse]. *)
Definition RevokedInfo_zero : RevokedInfo :=
  {| RevocationTime := time.zero; RevocationReason := 0 |}.

Definition singleResponse_zero : singleResponse :=
  {| CertID := certID_zero; Good := false; Revoked := RevokedInfo_zero;
     Unknown := false; ThisUpdate := time.zero; NextUpdate := time.zero;
     SingleExtensions := [] |}.

(** Field assignments [s.F = v]. *)
Definition set_CertID (v : certID) (s : singleResponse) : singleResponse :=
  {| CertID := v; Good := Good s; Revoked := Revoked s; Unknown := Unknown s;
     ThisUpdate := ThisUpdate s; NextUpdate := NextUpdate s;
     SingleExtensions := SingleExtensions s |}.
Definition set_Good (v : asn1.Flag) (s : singleResponse) : singleResponse :=
  {| CertID := CertID s; Good := v; Revoked := Revoked s; Unknown := Unknown s;
     ThisUpdate := ThisUpdate s; NextUpdate := NextUpdate s;
     SingleExtensions := SingleExtensions s |}.
Definition set_Revoked (v : RevokedInfo) (s : singleResponse) : singleResponse :=
  {| CertID := CertID s; Good := Good s; Revoked := v; Unknown := Unknown s;
     ThisUpdate := ThisUpdate s; NextUpdate := NextUpdate s;
     SingleExtensions := SingleExtensions s |}.
Definition set_Unknown (v : asn1.Flag) (s : singleResponse) : singleResponse :=
  {| CertID := CertID s; Good := Good s; Revoked := Revoked s; Unknown := v;
     ThisUpdate := ThisUpdate s; NextUpdate := NextUpdate s;
     SingleExtensions := SingleExtensions s |}.
Definition set_ThisUpdate (v : time.Time) (s : singleResponse) : singleResponse :=
  {| CertID := CertID s; Good := Good s; Revoked := Revoked s; Unknown := Unknown s;
     ThisUpdate := v; NextUpdate := NextUpdate s;
     SingleExtensions := SingleExtensions s |}.
Definition set_NextUpdate (v : time.Time) (s : singleResponse) : singleResponse :=
  {| CertID := CertID s; Good := Good s; Revoked := Revoked s; Unknown := Unknown s;
     ThisUpdate := ThisUpdate s; NextUpdate := v;
     SingleExtensions := SingleExtensions s |}.
Definition set_SingleExtensions (v : list pkix.Extension) (s : singleResponse)
  : singleResponse :=
  {| CertID := CertID s; Good := Good s; Revoked := Revoked s; Unknown := Unknown s;
     ThisUpdate := ThisUpdate s; NextUpdate := NextUpdate s;
     SingleExtensions := v |}.

Definition set_Value (v : bytes) (e : pkix.Extension) : pkix.Extension :=
  {| pkix.Id := pkix.Id e; pkix.Critical := pkix.Critical e; pkix.Value := v |}.

Definition set_Responses (v : list singleResponse) (d : responseData) : responseData :=
  {| responseData_Version := responseData_Version d; ResponderID := ResponderID d;
     ProducedAt := ProducedAt d; Responses := v;
     ResponseExtensions := ResponseExtensions d |}.

Definition set_TBSResponseData (v : responseData) (b : BasicResponse) : BasicResponse :=
  {| TBSResponseData := v;
     BasicResponse_SignatureAlgorithm := BasicResponse_SignatureAlgorithm b;
     BasicResponse_Signature := BasicResponse_Signature b;
     BasicResponse_Certs := BasicResponse_Certs b |}.

(** [func (ri *RevokedInfo) IsEmpty() bool] *)
Definition IsEmpty (ri : RevokedInfo) : bool :=
  if time.IsZero (RevocationTime ri) || time.Equal (RevocationTime ri) time.zero
  then true
  else false.

(** [basicResponse.TBSResponseData.Responses[index]], read and written. *)
Definition Responses_at (index : Z) : method BasicResponse singleResponse :=
  fun b =>
    match slice_at (Responses (TBSResponseData b)) index with
    | Returns sr => Returns (sr, b)
    | Panics p => Panics p
    end.

Definition Responses_assign (index : Z) (f : singleResponse -> singleResponse)
  : method BasicResponse unit :=
  fun b =>
    match slice_at (Responses (TBSResponseData b)) index with
    | Returns sr =>
        match slice_assign (Responses (TBSResponseData b)) index (f sr) with
        | Returns rs =>
            Returns (tt, set_TBSResponseData (set_Responses rs (TBSResponseData b)) b)
        | Panics p => Panics p
        end
    | Panics p => Panics p
    end.

(** The [range] loop of [SetNonce] over [extList], from the value [done] has
    before it.  [extension] is the loop variable, a copy of the element: the
    assignment to its [Value] changes the copy, and [extList] stays as it
    is; the loop leaves only [done]. *)
Definition SetNonce_range (nonce : bytes) (extList : list pkix.Extension)
    (done : bool) : bool :=
  fold_left
    (fun done extension =>
       if asn1.Equal (pkix.Id extension) OidOcspNonce then
         let extension := set_Value nonce extension in
         true
       else done)
    extList done.

(** [func (basicResponse *BasicResponse) SetNonce(index int, nonce []byte)].
    Extension lists are values here: no two of them share a backing array. *)
Definition SetNonce (index : Z) (nonce : bytes) : method BasicResponse unit :=
  let done := false in
  sr ← Responses_at index;
  let extList := SingleExtensions sr in
  let extList :=
    if (length extList =? 0)%nat then
      (* There is no Nonce extension, add it. *)
      let nonceExt :=
        {| pkix.Id := OidOcspNonce; pkix.Critical := false; pkix.Value := nonce |} in
      extList ++ [nonceExt]
    else
      let done := SetNonce_range nonce extList done in
      if negb done then
        (* There is no Nonce extension, add it. *)
        let nonceExt :=
          {| pkix.Id := OidOcspNonce; pkix.Critical := false; pkix.Value := nonce |} in
        extList ++ [nonceExt]
      else extList in
  Responses_assign index (set_SingleExtensions extList).

(** [func (basicResponse *BasicResponse) GetNonce(index int) []byte] *)
Definition GetNonce (index : Z) : method BasicResponse bytes :=
  sr ← Responses_at index;
  let extList := SingleExtensions sr in
  if (length extList =? 0)%nat then
    (* There is no Nonce extension. *)
    mret None
  else mret (range_find_nonce extList).

(** [func (basicResponse *BasicResponse) ClearStatus(index int)] *)
Definition ClearStatus (index : Z) : method BasicResponse unit :=
  Responses_assign index (set_Good false);;
  Responses_assign index (set_Unknown false);;
  Responses_assign index (set_Revoked RevokedInfo_zero).

(** One iteration of the loop of [MarshalBasicResponse] on the element [sr]:
    the value [s] it stores at the element's index, or [None] when no branch
    is taken and nothing is stored. *)
Definition MarshalBasicResponse_case (sr : singleResponse) : option singleResponse :=
  if Bool.eqb (Good sr) true && Bool.eqb (Unknown sr) true then
    (* Copy good but unknown *)
    let s := singleResponse_zero in
    let s := set_CertID (CertID sr) s in
    let s := set_ThisUpdate (ThisUpdate sr) s in
    let s := set_NextUpdate (NextUpdate sr) s in
    let s := set_SingleExtensions (SingleExtensions sr) s in
    let s := set_Good true s in
    Some s
  else if negb (IsEmpty (Revoked sr)) && Bool.eqb (Unknown sr) true then
    (* Copy revoked but unknown *)
    let s := singleResponse_zero in
    let s := set_CertID (CertID sr) s in
    let s := set_ThisUpdate (ThisUpdate sr) s in
    let s := set_NextUpdate (NextUpdate sr) s in
    let s := set_SingleExtensions (SingleExtensions sr) s in
    let s := set_Revoked (Revoked sr) s in
    Some s
  else if Bool.eqb (Good sr) false && IsEmpty (Revoked sr) then
    (* Set unknown if there was no status. *)
    let s := singleResponse_zero in
    let s := set_CertID (CertID sr) s in
    let s := set_ThisUpdate (ThisUpdate sr) s in
    let s := set_NextUpdate (NextUpdate sr) s in
    let s := set_SingleExtensions (SingleExtensions sr) s in
    let s := set_Unknown true s in
    Some s
  else None.

(** The status normalisation of one entry: what the entry is after its
    iteration of the loop. *)
Definition normalize (sr : singleResponse) : singleResponse :=
  default sr (MarshalBasicResponse_case sr).

(** [for i, sr := range Responses { ... Responses[i] = s ... }], iteration
    [i] reading the element at [i] and storing into the same slice. *)
Definition MarshalBasicResponse_step (responses : list singleResponse) (i : nat)
  : list singleResponse :=
  match responses !! i with
  | Some sr =>
      match MarshalBasicResponse_case sr with
      | Some s => <[i := s]> responses
      | None => responses
      end
  | None => responses
  end.

Definition MarshalBasicResponse_range (responses : list singleResponse)
  : list singleResponse :=
  fold_left MarshalBasicResponse_step (seq 0 (length responses)) responses.

(** The loop at the head of [MarshalResponseFromBasic]: it sets [Unknown] on
    the loop variable [sr], a copy, and stores nothing. *)
Definition MarshalResponseFromBasic_range (responses : list singleResponse)
    (basicResponse : BasicResponse) : BasicResponse :=
  fold_left
    (fun basicResponse sr =>
       if Bool.eqb (Good sr) false && IsEmpty (Revoked sr) then
         let sr := set_Unknown true sr in
         basicResponse
       else basicResponse)
    responses basicResponse.

(** ** The wrappers around encoding/asn1 *)

Section Wrappers.

Context {codec_request : asn1.Codec OcspRequest}.
Context {codec_response : asn1.Codec OcspResponse}.
Context {codec_basic : asn1.Codec BasicResponse}.

(** [func UnmarshalRequest(request []byte)], returning a pointer to OcspRequest and an error. *)
Definition UnmarshalRequest (request : bytes) : result OcspRequest :=
  match asn1.Unmarshal request with
  | Err err => Err err
  | Ok (req, rest) =>
      if (0 <? len_bytes rest)%nat then
        Err (errors_New "trailing data in OCSP request")
      else Ok req
  end.

(** [func MarshalRequest(ocspRequest *OcspRequest) ([]byte, error)] *)
Definition MarshalRequest (ocspRequest : OcspRequest) : result bytes :=
  asn1.Marshal ocspRequest.

(** [func UnmarshalResponse(response []byte)], returning a pointer to OcspResponse and an error. *)
Definition UnmarshalResponse (response : bytes) : result OcspResponse :=
  match asn1.Unmarshal response with
  | Err err => Err err
  | Ok (ocspResponse, rest) =>
      if (0 <? len_bytes rest)%nat then
        Err (errors_New "trailing data in OCSP response")
      else Ok ocspResponse
  end.

(** [func UnmarshalBasicResponse(basicResponse []byte)], returning a pointer to BasicResponse and an error. *)
Definition UnmarshalBasicResponse (basicResponse : bytes) : result BasicResponse :=
  match asn1.Unmarshal basicResponse with
  | Err err => Err err
  | Ok (basic, rest) =>
      if (0 <? len_bytes rest)%nat then
        Err (errors_New "trailing data in OCSP basic response")
      else Ok basic
  end.

(** [func UnmarshalResponseToBasic(response []byte)], returning a pointer to BasicResponse and an error. *)
Definition UnmarshalResponseToBasic (response : bytes) : result BasicResponse :=
  match asn1.Unmarshal response with
  | Err err => Err err
  | Ok (ocspResponse, rest) =>
      if (0 <? len_bytes rest)%nat then
        Err (errors_New "trailing data in OCSP response")
      else
        match UnmarshalBasicResponse (Response (ResponseBytes ocspResponse)) with
        | Err err => Err err
        | Ok basicResponse =>
            if (0 <? len_bytes rest)%nat then
              Err (errors_New "trailing data in OCSP basic response")
            else Ok basicResponse
        end
  end.


(** [func MarshalBasicResponse(basicResponse *BasicResponse) ([]byte, error)]:
    the result pair, and the pointee as the call leaves it. *)
Definition MarshalBasicResponse (basicResponse : BasicResponse)
  : result bytes * BasicResponse :=
  let basicResponse :=
    set_TBSResponseData
      (set_Responses
         (MarshalBasicResponse_range (Responses (TBSResponseData basicResponse)))
         (TBSResponseData basicResponse))
      basicResponse in
  (asn1.Marshal basicResponse, basicResponse).

(** [func MarshalResponseFromBasic(basicResponse *BasicResponse) ([]byte, error)] *)
Definition MarshalResponseFromBasic (basicResponse : BasicResponse)
  : result bytes * BasicResponse :=
  let basicResponse :=
    MarshalResponseFromBasic_range
      (Responses (TBSResponseData basicResponse)) basicResponse in
  let '(b, basicResponse) := MarshalBasicResponse basicResponse in
  match b with
  | Err err => (Err err, basicResponse)
  | Ok b =>
      let response :=
        {| ResponseStatus := 0;
           ResponseBytes :=
             {| ResponseType := OidOcspBasicResponse; Response := b |} |} in
      match asn1.Marshal response with
      | Err err => (Err err, basicResponse)
      | Ok r => (Ok r, basicResponse)
      end
  end.

End Wrappers.

(** What the trailing-data checks expect of [asn1.Unmarshal]: it reads one
    value off the front of its input, so that more bytes after the input
    change nothing but the bytes left over. *)
Definition reads_from_front {T} (codec : asn1.Codec T) : Prop :=
  forall (b : bytes) (val : T) (rest : bytes) (s : list Byte.byte),
    asn1.Unmarshal b = Ok (val, rest) ->
    asn1.Unmarshal (append b s) = Ok (val, append rest s).

(** ** An instance of the codec: DER as encoding/asn1 writes and reads it

    The package leaves the wire format to [encoding/asn1], which walks a Go
    value by reflection, guided by the struct tags.  This module follows that
    library for the field kinds the package uses, so that the message types
    get concrete codecs from their struct tags.  Left out: string kinds and
    [interface{}] fields, [asn1.RawContent], and fractional seconds in times
    (reported as errors here). *)

Module der.

Definition octets : Type := list Byte.byte.

(** [int(b)] and [byte(n)]. *)
Definition u8 (b : Byte.byte) : Z := Z.of_N (Byte.to_N b).
Definition byte_ (n : Z) : Byte.byte :=
  default Byte.x00 (Byte.of_N (Z.to_N (n mod 256))).

Definition is_Some_b {A} (o : option A) : bool :=
  match o with Some _ => true | None => false end.

#[export] Instance result_ret : MRet result := fun A v => Ok v.
#[export] Instance result_bind : MBind result :=
  fun A B k m => match m with Ok v => k v | Err e => Err e end.

Definition SyntaxError {A} (msg : string) : result A :=
  Err (asn1_error ("asn1: syntax error: " ++ msg)).
Definition StructuralError {A} (msg : string) : result A :=
  Err (asn1_error ("asn1: structure error: " ++ msg)).

Definition TagBoolean := 1.
Definition TagInteger := 2.
Definition TagBitString := 3.
Definition TagOctetString := 4.
Definition TagOID := 6.
Definition TagEnum := 10.
Definition TagUTF8String := 12.
Definition TagSequence := 16.
Definition TagSet := 17.
Definition TagNumericString := 18.
Definition TagPrintableString := 19.
Definition TagT61String := 20.
Definition TagIA5String := 22.
Definition TagUTCTime := 23.
Definition TagGeneralizedTime := 24.
Definition TagGeneralString := 27.
Definition TagBMPString := 30.

Definition ClassUniversal := 0.
Definition ClassApplication := 1.
Definition ClassContextSpecific := 2.
Definition ClassPrivate := 3.

Record tagAndLength : Type := {
  class : Z;
  tag : Z;
  length_ : Z;
  isCompound : bool
}.

(** *** Struct tags *)

Record fieldParameters : Type := {
  optional : bool;
  explicit : bool;
  application : bool;
  private : bool;
  defaultValue : option Z;
  tag_ : option Z;
  stringType : Z;
  timeType : Z;
  set : bool;
  omitEmpty : bool
}.

Definition no_parameters : fieldParameters :=
  {| optional := false; explicit := false; application := false;
     private := false; defaultValue := None; tag_ := None; stringType := 0;
     timeType := 0; set := false; omitEmpty := false |}.

(** [strings.Cut(str, ",")], repeated: the parts between commas. *)
Fixpoint parts (str part : string) : list string :=
  match str with
  | EmptyString => [part]
  | String c str' =>
      if Ascii.eqb c ","%char then part :: parts str' ""
      else parts str' (part ++ String c "")
  end.

(** [strconv.Atoi] on an optional sign and decimal digits. *)
Fixpoint digits (s : string) (acc : Z) : option Z :=
  match s with
  | EmptyString => Some acc
  | String c s' =>
      let d := Z.of_nat (Ascii.nat_of_ascii c) - 48 in
      if (0 <=? d) && (d <=? 9) then digits s' (10 * acc + d) else None
  end.

Definition Atoi (s : string) : option Z :=
  match s with
  | EmptyString => None
  | String "-"%char s' => if String.eqb s' "" then None else Z.opp <$> digits s' 0
  | String "+"%char s' => if String.eqb s' "" then None else digits s' 0
  | _ => digits s 0
  end.

Definition after (pre part : string) : string :=
  String.substring (String.length pre) (String.length part - String.length pre) part.

Definition parsePart (ret : fieldParameters) (part : string) : fieldParameters :=
  let with_tag (ret : fieldParameters) (t : option Z) (e a p : bool) :=
    {| optional := optional ret; explicit := e; application := a; private := p;
       defaultValue := defaultValue ret; tag_ := t; stringType := stringType ret;
       timeType := timeType ret; set := set ret; omitEmpty := omitEmpty ret |} in
  let or0 (t : option Z) := match t with None => Some 0 | _ => t end in
  if String.eqb part "optional" then
    {| optional := true; explicit := explicit ret; application := application ret;
       private := private ret; defaultValue := defaultValue ret; tag_ := tag_ ret;
       stringType := stringType ret; timeType := timeType ret; set := set ret;
       omitEmpty := omitEmpty ret |}
  else if String.eqb part "explicit" then
    with_tag ret (or0 (tag_ ret)) true (application ret) (private ret)
  else if String.eqb part "generalized" || String.eqb part "utc" then
    {| optional := optional ret; explicit := explicit ret; application := application ret;
       private := private ret; defaultValue := defaultValue ret; tag_ := tag_ ret;
       stringType := stringType ret;
       timeType := if String.eqb part "utc" then TagUTCTime else TagGeneralizedTime;
       set := set ret; omitEmpty := omitEmpty ret |}
  else if String.eqb part "ia5" || String.eqb part "printable"
          || String.eqb part "numeric" || String.eqb part "utf8" then
    {| optional := optional ret; explicit := explicit ret; application := application ret;
       private := private ret; defaultValue := defaultValue ret; tag_ := tag_ ret;
       stringType :=
         if String.eqb part "ia5" then TagIA5String
         else if String.eqb part "printable" then TagPrintableString
         else if String.eqb part "numeric" then TagNumericString
         else TagUTF8String;
       timeType := timeType ret; set := set ret; omitEmpty := omitEmpty ret |}
  else if String.prefix "default:" part then
    match Atoi (after "default:" part) with
    | Some i =>
        {| optional := optional ret; explicit := explicit ret;
           application := application ret; private := private ret;
           defaultValue := Some i; tag_ := tag_ ret; stringType := stringType ret;
           timeType := timeType ret; set := set ret; omitEmpty := omitEmpty ret |}
    | None => ret
    end
  else if String.prefix "tag:" part then
    match Atoi (after "tag:" part) with
    | Some i => with_tag ret (Some i) (explicit ret) (application ret) (private ret)
    | None => ret
    end
  else if String.eqb part "set" then
    {| optional := optional ret; explicit := explicit ret; application := application ret;
       private := private ret; defaultValue := defaultValue ret; tag_ := tag_ ret;
       stringType := stringType ret; timeType := timeType ret; set := true;
       omitEmpty := omitEmpty ret |}
  else if String.eqb part "application" then
    with_tag ret (or0 (tag_ ret)) (explicit ret) true (private ret)
  else if String.eqb part "private" then
    with_tag ret (or0 (tag_ ret)) (explicit ret) (application ret) true
  else if String.eqb part "omitempty" then
    {| optional := optional ret; explicit := explicit ret; application := application ret;
       private := private ret; defaultValue := defaultValue ret; tag_ := tag_ ret;
       stringType := stringType ret; timeType := timeType ret; set := set ret;
       omitEmpty := true |}
  else ret.

(** [parseFieldParameters(str)], [str] the [asn1:"..."] struct tag. *)
Definition parseFieldParameters (str : string) : fieldParameters :=
  if String.eqb str "" then no_parameters
  else fold_left parsePart (parts str "") no_parameters.

(** *** Tags, lengths and integers *)

(** The bytes of [n], most significant first, [l] of them in groups of
    [w] bits. *)
Fixpoint groups (w : Z) (l : nat) (n : Z) : list Z :=
  match l with
  | O => []
  | S l' => Z.land (Z.shiftr n (w * Z.of_nat l')) (2 ^ w - 1) :: groups w l' n
  end.

(** [base128IntLength] and [lengthLength]: how many groups [n] needs. *)
Definition groups_needed (w : Z) (n : Z) : nat :=
  if n <=? 0 then 1%nat else Z.to_nat ((Z.log2 n) / w + 1).

Definition appendBase128Int (n : Z) : octets :=
  let l := groups_needed 7 n in
  imap (fun i o => byte_ (if (S i =? l)%nat then o else Z.lor o 0x80))
       (groups 7 l n).

Definition appendLength (n : Z) : octets :=
  byte_ <$> groups 8 (groups_needed 8 n) n.

Definition appendTagAndLength (t : tagAndLength) : octets :=
  let b := Z.shiftl (class t) 6 in
  let b := if isCompound t then Z.lor b 0x20 else b in
  let dst :=
    if 31 <=? tag t then byte_ (Z.lor b 0x1f) :: appendBase128Int (tag t)
    else [byte_ (Z.lor b (tag t))] in
  if 128 <=? length_ t then
    dst ++ byte_ (Z.lor 0x80 (Z.of_nat (groups_needed 8 (length_ t))))
        :: appendLength (length_ t)
  else dst ++ [byte_ (length_ t)].

Definition MaxInt32 := 2147483647.

(** The loop of [parseBase128Int] from the bytes at the offset on;
    returns the value with the bytes after it. *)
Fixpoint parseBase128Int_loop (bytes : octets) (shifted : nat) (ret64 : Z)
  : result (Z * octets) :=
  match bytes with
  | [] => SyntaxError "truncated base 128 integer"
  | b :: rest =>
      if (shifted =? 5)%nat then StructuralError "base 128 integer too large"
      else
        let ret64 := Z.shiftl ret64 7 in
        let b := u8 b in
        if (shifted =? 0)%nat && (b =? 0x80) then
          SyntaxError "integer is not minimally encoded"
        else
          let ret64 := Z.lor ret64 (Z.land b 0x7f) in
          if Z.land b 0x80 =? 0 then
            if MaxInt32 <? ret64 then StructuralError "base 128 integer too large"
            else Ok (ret64, rest)
          else parseBase128Int_loop rest (S shifted) ret64
  end.

Definition parseBase128Int (bytes : octets) : result (Z * octets) :=
  parseBase128Int_loop bytes 0 0.

(** The loop over the [numBytes] length bytes of the long form. *)
Fixpoint parseLength_loop (numBytes : nat) (bytes : octets) (length : Z)
  : result (Z * octets) :=
  match numBytes with
  | O => Ok (length, bytes)
  | S numBytes' =>
      match bytes with
      | [] => SyntaxError "truncated tag or length"
      | b :: rest =>
          if 2 ^ 23 <=? length then StructuralError "length too large"
          else
            let length := Z.lor (Z.shiftl length 8) (u8 b) in
            if length =? 0 then
              StructuralError "superfluous leading zeros in length"
            else parseLength_loop numBytes' rest length
      end
  end.

(** [parseTagAndLength(bytes, offset)]: the header at the offset, with the
    bytes after it. *)
Definition parseTagAndLength (bytes : octets) : result (tagAndLength * octets) :=
  match bytes with
  | [] => Err (errors_New "asn1: internal error in parseTagAndLength")
  | b :: rest =>
      let b := u8 b in
      let class := Z.shiftr b 6 in
      let isCompound := Z.land b 0x20 =? 0x20 in
      let tag := Z.land b 0x1f in
      '(tag, rest) ←
        (if tag =? 0x1f then
           '(tag, rest) ← parseBase128Int rest;
           (* Tags should be encoded in minimal form. *)
           if tag <? 0x1f then SyntaxError "non-minimal tag" else Ok (tag, rest)
         else Ok (tag, rest));
      match rest with
      | [] => SyntaxError "truncated tag or length"
      | b :: rest =>
          let b := u8 b in
          if Z.land b 0x80 =? 0 then
            (* The length is encoded in the bottom 7 bits. *)
            Ok ({| class := class; tag := tag; length_ := Z.land b 0x7f;
                   isCompound := isCompound |}, rest)
          else
            (* Bottom 7 bits give the number of length bytes to follow. *)
            let numBytes := Z.land b 0x7f in
            if numBytes =? 0 then SyntaxError "indefinite length found (not DER)"
            else
              '(length, rest) ← parseLength_loop (Z.to_nat numBytes) rest 0;
              (* Short lengths must be encoded in short form. *)
              if length <? 0x80 then StructuralError "non-minimal length"
              else Ok ({| class := class; tag := tag; length_ := length;
                          isCompound := isCompound |}, rest)
      end
  end.

(** The shortest two's-complement form of [i], most significant byte
    first: what [int64Encoder] and [makeBigInt] write. *)
Definition integer_length (i : Z) : nat :=
  let m := if 0 <=? i then i else - i - 1 in
  Z.to_nat (Z.log2 m / 8 + 1 + (if Z.testbit m (8 * (Z.log2 m / 8) + 7) then 1 else 0)).

Definition integerEncoder (i : Z) : octets :=
  byte_ <$> groups 8 (integer_length i) i.

(** [checkInteger]: not empty, and minimally encoded. *)
Definition checkInteger (bytes : octets) : result unit :=
  match bytes with
  | [] => StructuralError "empty integer"
  | [_] => Ok tt
  | b0 :: b1 :: _ =>
      if ((u8 b0 =? 0) && (Z.land (u8 b1) 0x80 =? 0))
         || ((u8 b0 =? 0xff) && (Z.land (u8 b1) 0x80 =? 0x80))
      then StructuralError "integer not minimally-encoded"
      else Ok tt
  end.

(** The two's-complement value of big-endian [bytes]. *)
Definition twos_complement (bytes : octets) : Z :=
  let n := fold_left (fun ret b => Z.lor (Z.shiftl ret 8) (u8 b)) bytes 0 in
  match bytes with
  | b0 :: _ =>
      if Z.land (u8 b0) 0x80 =? 0x80 then n - 2 ^ (8 * Z.of_nat (length bytes))
      else n
  | [] => n
  end.

Definition parseInt64 (bytes : octets) : result Z :=
  checkInteger bytes;;
  if (8 <? length bytes)%nat then
    (* We'll overflow an int64 in this case. *)
    StructuralError "integer too large"
  else Ok (twos_complement bytes).

Definition parseInt32 (bytes : octets) : result Z :=
  checkInteger bytes;;
  ret64 ← parseInt64 bytes;
  if (ret64 <? - 2 ^ 31) || (2 ^ 31 <=? ret64) then
    StructuralError "integer too large"
  else Ok ret64.

Definition parseBigInt (bytes : octets) : result (option Z) :=
  checkInteger bytes;;
  Ok (Some (twos_complement bytes)).

Definition makeBigInt (n : option Z) : result octets :=
  match n with
  | None => StructuralError "empty integer"
  | Some n => Ok (integerEncoder n)
  end.

Definition parseBool (bytes : octets) : result bool :=
  match bytes with
  | [b] =>
      if u8 b =? 0 then Ok false
      else if u8 b =? 0xff then Ok true
      else SyntaxError "invalid boolean"
  | _ => SyntaxError "invalid boolean"
  end.

(** *** Object identifiers and bit strings *)

Definition makeObjectIdentifier (oid : asn1.ObjectIdentifier) : result octets :=
  match oid with
  | o0 :: o1 :: arcs =>
      if (2 <? o0) || ((o0 <? 2) && (40 <=? o1)) then
        StructuralError "invalid object identifier"
      else Ok (appendBase128Int (o0 * 40 + o1) ++ mjoin (appendBase128Int <$> arcs))
  | _ => StructuralError "invalid object identifier"
  end.

(** The loop of [parseObjectIdentifier] over the arcs after the first two;
    every arc takes at least one byte, so [length bytes] rounds do. *)
Fixpoint parseObjectIdentifier_loop (rounds : nat) (bytes : octets)
  : result (list Z) :=
  match bytes, rounds with
  | [], _ => Ok []
  | _, O => SyntaxError "truncated base 128 integer"
  | _, S rounds' =>
      '(v, rest) ← parseBase128Int bytes;
      s ← parseObjectIdentifier_loop rounds' rest;
      Ok (v :: s)
  end.

Definition parseObjectIdentifier (bytes : octets) : result asn1.ObjectIdentifier :=
  match bytes with
  | [] => SyntaxError "zero length OBJECT IDENTIFIER"
  | _ =>
      '(v, rest) ← parseBase128Int bytes;
      s ← parseObjectIdentifier_loop (length rest) rest;
      if v <? 80 then Ok (v / 40 :: v mod 40 :: s)
      else Ok (2 :: v - 80 :: s)
  end.

Definition bitStringEncoder (b : asn1.BitString) : octets :=
  byte_ ((8 - Z.rem (asn1.BitLength b) 8) mod 8) :: contents (asn1.BitString_Bytes b).

Definition parseBitString (bytes : octets) : result asn1.BitString :=
  match bytes with
  | [] => SyntaxError "zero length BIT STRING"
  | b0 :: data =>
      let paddingBits := u8 b0 in
      if (7 <? paddingBits)
         || ((length bytes =? 1)%nat && (0 <? paddingBits))
         || negb (Z.land (u8 (List.last bytes b0)) (2 ^ paddingBits - 1) =? 0)
      then SyntaxError "invalid padding bits in BIT STRING"
      else Ok {| asn1.BitLength := (Z.of_nat (length bytes) - 1) * 8 - paddingBits;
                 asn1.BitString_Bytes := Some data |}
  end.

(** *** Times *)

(** Days since January 1, year 1, of a proleptic Gregorian date, and
    back. *)
Definition days_from_civil (y m d : Z) : Z :=
  let y := if m <=? 2 then y - 1 else y in
  let era := y / 400 in
  let yoe := y mod 400 in
  let doy := (153 * (if 2 <? m then m - 3 else m + 9) + 2) / 5 + d - 1 in
  let doe := yoe * 365 + yoe / 4 - yoe / 100 + doy in
  era * 146097 + doe - 306.

Definition civil_from_days (days : Z) : Z * Z * Z :=
  let z := days + 306 in
  let era := z / 146097 in
  let doe := z mod 146097 in
  let yoe := (doe - doe / 1460 + doe / 36524 - doe / 146096) / 365 in
  let doy := doe - (365 * yoe + yoe / 4 - yoe / 100) in
  let mp := (5 * doy + 2) / 153 in
  let d := doy - (153 * mp + 2) / 5 + 1 in
  let m := if mp <? 10 then mp + 3 else mp - 9 in
  (yoe + era * 400 + (if m <=? 2 then 1 else 0), m, d).

(** [t.Zone()]'s offset, and the wall clock in that zone. *)
Definition Zone (t : time.Time) : Z :=
  match time.loc t with
  | None => 0
  | Some l => time.zone_offset l
  end.

Definition Date (t : time.Time) : Z * Z * Z :=
  civil_from_days ((time.sec t + Zone t) / 86400).

Definition Year (t : time.Time) : Z := (Date t).1.1.

Definition Clock (t : time.Time) : Z * Z * Z :=
  let s := (time.sec t + Zone t) mod 86400 in
  (s / 3600, s mod 3600 / 60, s mod 60).

Definition appendTwoDigits (v : Z) : octets :=
  [byte_ (48 + (v / 10) mod 10); byte_ (48 + v mod 10)].

Definition appendFourDigits (v : Z) : octets :=
  [byte_ (48 + (v / 1000) mod 10); byte_ (48 + (v / 100) mod 10);
   byte_ (48 + (v / 10) mod 10); byte_ (48 + v mod 10)].

Definition appendTimeCommon (t : time.Time) : octets :=
  let '(_, month, day) := Date t in
  let '(hour, min, sec) := Clock t in
  let offset := Zone t in
  let offsetMinutes := Z.abs (Z.quot offset 60) in
  appendTwoDigits month ++ appendTwoDigits day ++ appendTwoDigits hour
    ++ appendTwoDigits min ++ appendTwoDigits sec
    ++ (if Z.quot offset 60 =? 0 then [byte_ 90 (* Z *)]
        else byte_ (if 0 <? offset then 43 (* + *) else 45 (* - *))
             :: appendTwoDigits (offsetMinutes / 60)
             ++ appendTwoDigits (offsetMinutes mod 60)).

Definition outsideUTCRange (t : time.Time) : bool :=
  (Year t <? 1950) || (2050 <=? Year t).

Definition makeUTCTime (t : time.Time) : result octets :=
  if (1950 <=? Year t) && (Year t <? 2050) then
    Ok (appendTwoDigits (Year t mod 100) ++ appendTimeCommon t)
  else StructuralError "cannot represent time as UTCTime".

Definition makeGeneralizedTime (t : time.Time) : result octets :=
  if (Year t <? 0) || (9999 <? Year t) then
    StructuralError "cannot represent time as GeneralizedTime"
  else Ok (appendFourDigits (Year t) ++ appendTimeCommon t).

(** [n] decimal digits at the head of [bytes]. *)
Fixpoint number (n : nat) (bytes : octets) (acc : Z) : option (Z * octets) :=
  match n, bytes with
  | O, _ => Some (acc, bytes)
  | S n', b :: rest =>
      let d := u8 b - 48 in
      if (0 <=? d) && (d <=? 9) then number n' rest (10 * acc + d) else None
  | S _, [] => None
  end.

(** The zone at the end of a time, layout [Z0700]: [Z], or a sign with
    hours and minutes. *)
Definition zone (bytes : octets) : option (option time.Location) :=
  match bytes with
  | [z] => if u8 z =? 90 then Some None else None
  | sign :: rest =>
      '(hh, rest) ← number 2 rest 0;
      '(mm, rest) ← number 2 rest 0;
      match rest with
      | [] =>
          let offset := (hh * 60 + mm) * 60 in
          if u8 sign =? 43 then
            Some (Some {| time.zone_name := ""; time.zone_offset := offset |})
          else if u8 sign =? 45 then
            Some (Some {| time.zone_name := ""; time.zone_offset := - offset |})
          else None
      | _ => None
      end
  | [] => None
  end.

(** [time.Parse] for the layouts of the two ASN.1 time types: a year of
    [yearDigits] digits, month, day, hour, minute, seconds when
    [withSeconds], and the zone.  Fields out of range are left to the
    comparison with the re-serialised time, which then fails. *)
Definition Parse (yearDigits : nat) (withSeconds : bool) (bytes : octets)
  : option time.Time :=
  '(year, rest) ← number yearDigits bytes 0;
  let year :=
    if (yearDigits =? 2)%nat then (if 50 <=? year then 1900 + year else 2000 + year)
    else year in
  '(month, rest) ← number 2 rest 0;
  '(day, rest) ← number 2 rest 0;
  '(hour, rest) ← number 2 rest 0;
  '(min, rest) ← number 2 rest 0;
  '(sec, rest) ← (if withSeconds then number 2 rest 0 else Some (0, rest));
  loc ← zone rest;
  let offset := match loc with None => 0 | Some l => time.zone_offset l end in
  Some {| time.sec := days_from_civil year month day * 86400
                      + hour * 3600 + min * 60 + sec - offset;
          time.nsec := 0; time.loc := loc |}.

Fixpoint octets_eqb (a b : octets) : bool :=
  match a, b with
  | [], [] => true
  | x :: a', y :: b' => Byte.eqb x y && octets_eqb a' b'
  | _, _ => false
  end.

Definition not_serialized_back {A} : result A :=
  Err (asn1_error
    "asn1: time did not serialize back to the original value and may be invalid").

Definition parseUTCTime (bytes : octets) : result time.Time :=
  match Parse 2 false bytes with
  | Some ret =>
      (* layout 0601021504Z0700 *)
      if octets_eqb (appendTwoDigits (Year ret mod 100)
                     ++ take 8 (appendTimeCommon ret) ++ drop 10 (appendTimeCommon ret))
                    bytes
      then Ok ret else not_serialized_back
  | None =>
      match Parse 2 true bytes with
      | Some ret =>
          (* layout 060102150405Z0700 *)
          if octets_eqb (appendTwoDigits (Year ret mod 100) ++ appendTimeCommon ret) bytes
          then Ok ret else not_serialized_back
      | None => Err (asn1_error "parsing time: cannot parse as UTCTime")
      end
  end.

Definition parseGeneralizedTime (bytes : octets) : result time.Time :=
  match Parse 4 true bytes with
  | Some ret =>
      if octets_eqb (appendFourDigits (Year ret) ++ appendTimeCommon ret) bytes
      then Ok ret else not_serialized_back
  | None => Err (asn1_error "parsing time: cannot parse as GeneralizedTime")
  end.

(** *** Fields *)

(** What reflection tells the library about a Go type [T]. *)
Record GoType (T : Type) : Type := {
  (** [getUniversalType(t)]: matchAny, tagNumber, isCompound *)
  getUniversalType : bool * Z * bool;
  (** [reflect.Zero(t)], and [reflect.DeepEqual(v, reflect.Zero(t))] *)
  Zero : T;
  isZero : T -> bool;
  (** [canHaveDefaultValue(kind)]: [v.Int()] and [v.SetInt(i)] *)
  asInt : option ((T -> Z) * (Z -> T));
  (** [t == rawValueType] *)
  asRawValue : option (T -> asn1.RawValue);
  (** [t == flagType]: [v.SetBool(b)] *)
  asFlag : option (bool -> T);
  (** [t == timeType] *)
  asTime : option (T -> time.Time);
  (** [kind == reflect.Slice]: [v.Len()] *)
  sliceLen : option (T -> nat);
  makeBody : fieldParameters -> T -> result octets;
  (** the value from the universal tag, the header, [innerBytes] and
      [bytes[initOffset:offset]] *)
  parseBody : Z -> tagAndLength -> octets -> octets -> result T
}.
Arguments getUniversalType {T} _.
Arguments Zero {T} _.
Arguments isZero {T} _ _.
Arguments asInt {T} _.
Arguments asRawValue {T} _.
Arguments asFlag {T} _.
Arguments asTime {T} _.
Arguments sliceLen {T} _.
Arguments makeBody {T} _ _ _.
Arguments parseBody {T} _ _ _ _ _.

Definition with_set (params : fieldParameters) : fieldParameters :=
  {| optional := optional params; explicit := explicit params;
     application := application params; private := private params;
     defaultValue := defaultValue params; tag_ := tag_ params;
     stringType := stringType params; timeType := timeType params; set := true;
     omitEmpty := omitEmpty params |}.

(** [makeField(v, params)] *)
Definition makeField {T} (ty : GoType T) (v : T) (params : fieldParameters)
  : result octets :=
  if match sliceLen ty with
     | Some len => (len v =? 0)%nat && omitEmpty params
     | None => false
     end
  then Ok []
  else if match optional params, defaultValue params, asInt ty with
          | true, Some d, Some (int, _) => int v =? d
          | _, _, _ => false
          end
  then Ok []
  (* If no default value is given then the zero value for the type is
     assumed to be the default value. *)
  else if optional params && negb (is_Some_b (defaultValue params)) && isZero ty v
  then Ok []
  else
    match asRawValue ty with
    | Some raw =>
        let rv := raw v in
        if negb (len_bytes (asn1.FullBytes rv) =? 0)%nat then
          Ok (contents (asn1.FullBytes rv))
        else
          Ok (appendTagAndLength
                {| class := asn1.Class rv; tag := asn1.Tag rv;
                   length_ := Z.of_nat (len_bytes (asn1.Bytes rv));
                   isCompound := asn1.IsCompound rv |}
              ++ contents (asn1.Bytes rv))
    | None =>
        let '(matchAny, tag, isCompound) := getUniversalType ty in
        if matchAny then StructuralError "unknown Go type"
        else if negb (timeType params =? 0) && negb (tag =? TagUTCTime) then
          StructuralError "explicit time type given to non-time member"
        else if negb (stringType params =? 0) && negb (tag =? TagPrintableString) then
          StructuralError "explicit string type given to non-string member"
        else
          let tag :=
            match asTime ty with
            | Some t =>
                if (timeType params =? TagGeneralizedTime) || outsideUTCRange (t v)
                then TagGeneralizedTime else tag
            | None => tag
            end in
          if set params && negb (tag =? TagSequence) then
            StructuralError "non sequence tagged as set"
          else
            let tag := if set params then TagSet else tag in
            let params :=
              if (tag =? TagSet) && negb (set params) then with_set params
              else params in
            body ← makeBody ty params v;
            let bodyLen := Z.of_nat (length body) in
            match tag_ params with
            | Some ptag =>
                let class :=
                  if application params then ClassApplication
                  else if private params then ClassPrivate
                  else ClassContextSpecific in
                if explicit params then
                  let t :=
                    appendTagAndLength
                      {| class := ClassUniversal; tag := tag; length_ := bodyLen;
                         isCompound := isCompound |} in
                  Ok (appendTagAndLength
                        {| class := class; tag := ptag;
                           length_ := bodyLen + Z.of_nat (length t);
                           isCompound := true |}
                      ++ t ++ body)
                else
                  (* implicit tag. *)
                  Ok (appendTagAndLength
                        {| class := class; tag := ptag; length_ := bodyLen;
                           isCompound := isCompound |}
                      ++ body)
            | None =>
                Ok (appendTagAndLength
                      {| class := ClassUniversal; tag := tag; length_ := bodyLen;
                         isCompound := isCompound |}
                    ++ body)
            end
    end.

(** [setDefaultValue(v, params)] on a field still at its zero value: the
    value the field is left with, when the field may be absent. *)
Definition setDefaultValue {T} (ty : GoType T) (params : fieldParameters)
  : option T :=
  if negb (optional params) then None
  else
    match defaultValue params, asInt ty with
    | Some d, Some (_, SetInt) => Some (SetInt d)
    | _, _ => Some (Zero ty)
    end.

(** [parseField(v, bytes, initOffset, params)], [bytes] being the slice
    from [initOffset] on: the value and the bytes from the new offset on. *)
Definition parseField {T} (ty : GoType T) (bytes : octets) (params : fieldParameters)
  : result (T * octets) :=
  match bytes with
  | [] =>
      (* If we have run out of data, it may be that there are optional
         elements at the end. *)
      match setDefaultValue ty params with
      | Some v => Ok (v, bytes)
      | None => SyntaxError "sequence truncated"
      end
  | _ =>
      '(t, rest) ← parseTagAndLength bytes;
      let continue (t : tagAndLength) (rest : octets) : result (T * octets) :=
        let '(matchAny, universalTag, compoundType) := getUniversalType ty in
        (* UTCTime and GeneralizedTime both map to the Go type time.Time. *)
        let universalTag :=
          if (universalTag =? TagUTCTime) && (tag t =? TagGeneralizedTime)
             && (class t =? ClassUniversal)
          then TagGeneralizedTime else universalTag in
        let universalTag := if set params then TagSet else universalTag in
        let '(matchAnyClassAndTag, expectedClass, expectedTag) :=
          match explicit params, tag_ params with
          | false, Some ptag =>
              (false,
               if private params then ClassPrivate
               else if application params then ClassApplication
               else ClassContextSpecific,
               ptag)
          | _, _ => (matchAny, ClassUniversal, universalTag)
          end in
        (* We have unwrapped any explicit tagging at this point. *)
        if (negb matchAnyClassAndTag
            && (negb (class t =? expectedClass) || negb (tag t =? expectedTag)))
           || (negb matchAny && negb (Bool.eqb (isCompound t) compoundType))
        then
          (* Tags don't match. Again, it could be an optional element. *)
          match setDefaultValue ty params with
          | Some v => Ok (v, bytes)
          | None => StructuralError "tags don't match"
          end
        else if Z.of_nat (length rest) <? length_ t then
          SyntaxError "data truncated"
        else
          let innerBytes := take (Z.to_nat (length_ t)) rest in
          let rest := drop (Z.to_nat (length_ t)) rest in
          v ← parseBody ty universalTag t innerBytes
                (take (length bytes - length rest) bytes);
          Ok (v, rest) in
      if explicit params then
        let expectedClass :=
          if application params then ClassApplication else ClassContextSpecific in
        match rest with
        | [] => StructuralError "explicit tag has no child"
        | _ =>
            if (class t =? expectedClass) && (tag t =? default 0 (tag_ params))
               && ((length_ t =? 0) || isCompound t)
            then
              if is_Some_b (asRawValue ty) then
                (* The inner element should not be parsed for RawValues. *)
                continue t rest
              else if 0 <? length_ t then
                '(t, rest) ← parseTagAndLength rest;
                continue t rest
              else
                match asFlag ty with
                | Some SetBool => Ok (SetBool true, rest)
                | None =>
                    StructuralError "zero length explicit tag was not an asn1.Flag"
                end
            else
              (* The tags didn't match, it might be an optional element. *)
              match setDefaultValue ty params with
              | Some v => Ok (v, bytes)
              | None => StructuralError "explicitly tagged member didn't match"
              end
        end
      else continue t rest
  end.

(** *** Types *)

Definition type_int : GoType Z :=
  {| getUniversalType := (false, TagInteger, false);
     Zero := 0; isZero := fun v => v =? 0;
     asInt := Some (fun v => v, fun i => i);
     asRawValue := None; asFlag := None; asTime := None; sliceLen := None;
     makeBody := fun _ v => Ok (integerEncoder v);
     parseBody := fun _ _ innerBytes _ => parseInt64 innerBytes |}.

Definition type_Enumerated : GoType asn1.Enumerated :=
  {| getUniversalType := (false, TagEnum, false);
     Zero := 0; isZero := fun v => v =? 0;
     asInt := Some (fun v => v, fun i => i);
     asRawValue := None; asFlag := None; asTime := None; sliceLen := None;
     makeBody := fun _ v => Ok (integerEncoder v);
     parseBody := fun _ _ innerBytes _ => parseInt32 innerBytes |}.

Definition type_bigInt : GoType (option Z) :=
  {| getUniversalType := (false, TagInteger, false);
     Zero := None; isZero := fun v => negb (is_Some_b v);
     asInt := None; asRawValue := None; asFlag := None; asTime := None;
     sliceLen := None;
     makeBody := fun _ v => makeBigInt v;
     parseBody := fun _ _ innerBytes _ => parseBigInt innerBytes |}.

Definition type_bool : GoType bool :=
  {| getUniversalType := (false, TagBoolean, false);
     Zero := false; isZero := negb;
     asInt := None; asRawValue := None; asFlag := None; asTime := None;
     sliceLen := None;
     makeBody := fun _ v => Ok [if v then byte_ 0xff else byte_ 0];
     parseBody := fun _ _ innerBytes _ => parseBool innerBytes |}.

Definition type_Flag : GoType asn1.Flag :=
  {| getUniversalType := (false, TagBoolean, false);
     Zero := false; isZero := negb;
     asInt := None; asRawValue := None; asFlag := Some (fun b => b);
     asTime := None; sliceLen := None;
     makeBody := fun _ _ => Ok [];
     parseBody := fun _ _ _ _ => Ok true |}.

Definition type_bytes : GoType bytes :=
  {| getUniversalType := (false, TagOctetString, false);
     Zero := None; isZero := fun v => negb (is_Some_b v);
     asInt := None; asRawValue := None; asFlag := None; asTime := None;
     sliceLen := Some len_bytes;
     makeBody := fun _ v => Ok (contents v);
     parseBody := fun _ _ innerBytes _ => Ok (Some innerBytes) |}.

Definition type_ObjectIdentifier : GoType asn1.ObjectIdentifier :=
  {| getUniversalType := (false, TagOID, false);
     Zero := []; isZero := fun v => (length v =? 0)%nat;
     asInt := None; asRawValue := None; asFlag := None; asTime := None;
     sliceLen := Some length;
     makeBody := fun _ v => makeObjectIdentifier v;
     parseBody := fun _ _ innerBytes _ => parseObjectIdentifier innerBytes |}.

Definition type_BitString : GoType asn1.BitString :=
  {| getUniversalType := (false, TagBitString, false);
     Zero := asn1.BitString_zero;
     isZero := fun v =>
       negb (is_Some_b (asn1.BitString_Bytes v)) && (asn1.BitLength v =? 0);
     asInt := None; asRawValue := None; asFlag := None; asTime := None;
     sliceLen := None;
     makeBody := fun _ v => Ok (bitStringEncoder v);
     parseBody := fun _ _ innerBytes _ => parseBitString innerBytes |}.

Definition type_Time : GoType time.Time :=
  {| getUniversalType := (false, TagUTCTime, false);
     Zero := time.zero;
     isZero := fun v =>
       (time.sec v =? 0) && (time.nsec v =? 0) && negb (is_Some_b (time.loc v));
     asInt := None; asRawValue := None; asFlag := None;
     asTime := Some (fun t => t); sliceLen := None;
     makeBody := fun params t =>
       if (timeType params =? TagGeneralizedTime) || outsideUTCRange t
       then makeGeneralizedTime t else makeUTCTime t;
     parseBody := fun universalTag _ innerBytes _ =>
       if universalTag =? TagUTCTime then parseUTCTime innerBytes
       else parseGeneralizedTime innerBytes |}.

Definition type_RawValue : GoType asn1.RawValue :=
  {| getUniversalType := (true, -1, false);
     Zero := asn1.RawValue_zero;
     isZero := fun v =>
       (asn1.Class v =? 0) && (asn1.Tag v =? 0) && negb (asn1.IsCompound v)
       && negb (is_Some_b (asn1.Bytes v)) && negb (is_Some_b (asn1.FullBytes v));
     asInt := None; asRawValue := Some (fun v => v); asFlag := None;
     asTime := None; sliceLen := None;
     makeBody := fun _ _ => StructuralError "unknown Go type";
     parseBody := fun _ t innerBytes fullBytes =>
       Ok {| asn1.Class := class t; asn1.Tag := tag t;
             asn1.IsCompound := isCompound t; asn1.Bytes := Some innerBytes;
             asn1.FullBytes := Some fullBytes |} |}.

(** [bytes.Compare], and [slices.SortFunc] with it. *)
Fixpoint Compare (a b : octets) : comparison :=
  match a, b with
  | [], [] => Eq
  | [], _ :: _ => Lt
  | _ :: _, [] => Gt
  | x :: a', y :: b' =>
      match u8 x ?= u8 y with
      | Eq => Compare a' b'
      | c => c
      end
  end.

Fixpoint sorted_insert (e : octets) (l : list octets) : list octets :=
  match l with
  | [] => [e]
  | x :: l' =>
      match Compare e x with
      | Gt => x :: sorted_insert e l'
      | _ => e :: l
      end
  end.

Definition SortFunc (l : list octets) : list octets := foldr sorted_insert [] l.

(** The encoders of the elements of a slice, each made with no
    parameters. *)
Fixpoint makeElements {A} (elem : GoType A) (v : list A) : result (list octets) :=
  match v with
  | [] => Ok []
  | x :: v' =>
      e ← makeField elem x no_parameters;
      m ← makeElements elem v';
      Ok (e :: m)
  end.

(** The first loop of [parseSequenceOf]: the number of elements, each
    header checked against the element type.  Every element takes at
    least two bytes, so [length bytes] rounds do. *)
Fixpoint countElements {A} (elem : GoType A) (rounds : nat) (bytes : octets)
    (numElements : nat) : result nat :=
  match bytes, rounds with
  | [], _ => Ok numElements
  | _, O => SyntaxError "truncated sequence"
  | _, S rounds' =>
      '(t, rest) ← parseTagAndLength bytes;
      let '(matchAny, expectedTag, compoundType) := getUniversalType elem in
      let ttag :=
        if (tag t =? TagIA5String) || (tag t =? TagGeneralString)
           || (tag t =? TagT61String) || (tag t =? TagUTF8String)
           || (tag t =? TagNumericString) || (tag t =? TagBMPString)
        then TagPrintableString
        else if (tag t =? TagGeneralizedTime) || (tag t =? TagUTCTime)
        then TagUTCTime
        else tag t in
      if negb matchAny
         && (negb (class t =? ClassUniversal)
             || negb (Bool.eqb (isCompound t) compoundType)
             || negb (ttag =? expectedTag))
      then StructuralError "sequence tag mismatch"
      else if Z.of_nat (length rest) <? length_ t then
        SyntaxError "truncated sequence"
      else
        countElements elem rounds' (drop (Z.to_nat (length_ t)) rest) (S numElements)
  end.

(** The second loop: [numElements] fields, one after the other. *)
Fixpoint parseElements {A} (elem : GoType A) (numElements : nat) (bytes : octets)
  : result (list A) :=
  match numElements with
  | O => Ok []
  | S n =>
      '(x, rest) ← parseField elem bytes no_parameters;
      ret ← parseElements elem n rest;
      Ok (x :: ret)
  end.

Definition parseSequenceOf {A} (elem : GoType A) (bytes : octets)
  : result (list A) :=
  numElements ← countElements elem (length bytes) bytes 0;
  parseElements elem numElements bytes.

(** A slice type with elements [elem]; [SET] says that the name of the
    type ends in SET. *)
Definition sliceOf {A} (elem : GoType A) (SET : bool) : GoType (list A) :=
  {| getUniversalType := (false, if SET then TagSet else TagSequence, true);
     Zero := []; isZero := fun v => (length v =? 0)%nat;
     asInt := None; asRawValue := None; asFlag := None; asTime := None;
     sliceLen := Some length;
     makeBody := fun params v =>
       m ← makeElements elem v;
       Ok (mjoin (if set params then SortFunc m else m));
     parseBody := fun _ _ innerBytes _ => parseSequenceOf elem innerBytes |}.

(** A field of a struct [S]: its type, its struct tag, and how to read
    and to assign it. *)
Record StructField (S : Type) : Type := field {
  FieldType : Type;
  Type_ : GoType FieldType;
  Tag : string;
  Get : S -> FieldType;
  Set_ : FieldType -> S -> S
}.
Arguments field {S FieldType} _ _ _ _.
Arguments FieldType {S} _.
Arguments Type_ {S} _.
Arguments Tag {S} _.
Arguments Get {S} _ _.
Arguments Set_ {S} _ _ _.

(** A struct type with exported fields: the fields are written one after
    the other and read one after the other; bytes left over in the
    SEQUENCE are allowed. *)
Definition structOf {S} (zero : S) (fields : list (StructField S)) : GoType S :=
  {| getUniversalType := (false, TagSequence, true);
     Zero := zero;
     isZero := fun v => forallb (fun f => isZero (Type_ f) (Get f v)) fields;
     asInt := None; asRawValue := None; asFlag := None; asTime := None;
     sliceLen := None;
     makeBody := fun _ v =>
       fold_left
         (fun m f =>
            m ← m;
            e ← makeField (Type_ f) (Get f v) (parseFieldParameters (Tag f));
            Ok (m ++ e))
         fields (Ok []);
     parseBody := fun _ _ innerBytes _ =>
       '(v, _) ←
         fold_left
           (fun r f =>
              '(v, innerBytes) ← r;
              '(x, innerBytes) ←
                parseField (Type_ f) innerBytes (parseFieldParameters (Tag f));
              Ok (Set_ f x v, innerBytes))
           fields (Ok (zero, innerBytes));
       Ok v |}.

(** [asn1.Marshal(val)] and [asn1.Unmarshal(b, &val)] at a type. *)
Definition Marshal {T} (ty : GoType T) (val : T) : result bytes :=
  e ← makeField ty val (parseFieldParameters "");
  Ok (Some e).

Definition Unmarshal {T} (ty : GoType T) (b : bytes) : result (T * bytes) :=
  '(val, rest) ← parseField ty (contents b) (parseFieldParameters "");
  Ok (val, Some rest).

End der.

(** ** The message types as encoding/asn1 sees them

    Each struct with its fields in order, every field with its type and its
    [asn1] struct tag as the package declares them. *)

Module wire.

Import der.

(** crypto/x509/pkix *)

Definition type_AlgorithmIdentifier : GoType pkix.AlgorithmIdentifier :=
  structOf pkix.AlgorithmIdentifier_zero
    [ field type_ObjectIdentifier "" pkix.Algorithm
        (fun x s => {| pkix.Algorithm := x; pkix.Parameters := pkix.Parameters s |});
      field type_RawValue "optional" pkix.Parameters
        (fun x s => {| pkix.Algorithm := pkix.Algorithm s; pkix.Parameters := x |}) ].

Definition type_Extension : GoType pkix.Extension :=
  structOf {| pkix.Id := []; pkix.Critical := false; pkix.Value := None |}
    [ field type_ObjectIdentifier "" pkix.Id
        (fun x s => {| pkix.Id := x; pkix.Critical := pkix.Critical s;
                       pkix.Value := pkix.Value s |});
      field type_bool "optional" pkix.Critical
        (fun x s => {| pkix.Id := pkix.Id s; pkix.Critical := x;
                       pkix.Value := pkix.Value s |});
      field type_bytes "" pkix.Value
        (fun x s => {| pkix.Id := pkix.Id s; pkix.Critical := pkix.Critical s;
                       pkix.Value := x |}) ].

Definition type_AttributeTypeAndValue : GoType pkix.AttributeTypeAndValue :=
  structOf {| pkix.Type_ := []; pkix.AttributeValue := asn1.RawValue_zero |}
    [ field type_ObjectIdentifier "" pkix.Type_
        (fun x s => {| pkix.Type_ := x; pkix.AttributeValue := pkix.AttributeValue s |});
      field type_RawValue "" pkix.AttributeValue
        (fun x s => {| pkix.Type_ := pkix.Type_ s; pkix.AttributeValue := x |}) ].

Definition type_RDNSequence : GoType pkix.RDNSequence :=
  sliceOf (sliceOf type_AttributeTypeAndValue true) false.

(** ocsp.go *)

Definition type_certID : GoType certID :=
  structOf certID_zero
    [ field type_AlgorithmIdentifier "" HashAlgorithm
        (fun x s => {| HashAlgorithm := x; NameHash := NameHash s;
                       IssuerKeyHash := IssuerKeyHash s;
                       SerialNumber := SerialNumber s |});
      field type_bytes "" NameHash
        (fun x s => {| HashAlgorithm := HashAlgorithm s; NameHash := x;
                       IssuerKeyHash := IssuerKeyHash s;
                       SerialNumber := SerialNumber s |});
      field type_bytes "" IssuerKeyHash
        (fun x s => {| HashAlgorithm := HashAlgorithm s; NameHash := NameHash s;
                       IssuerKeyHash := x; SerialNumber := SerialNumber s |});
      field type_bigInt "" SerialNumber
        (fun x s => {| HashAlgorithm := HashAlgorithm s; NameHash := NameHash s;
                       IssuerKeyHash := IssuerKeyHash s; SerialNumber := x |}) ].

(** request.go *)

Definition signature_zero : signature :=
  {| signature_SignatureAlgorithm := pkix.AlgorithmIdentifier_zero;
     signature_Signature := asn1.BitString_zero; signature_Certs := [] |}.

Definition type_signature : GoType signature :=
  structOf signature_zero
    [ field type_AlgorithmIdentifier "" signature_SignatureAlgorithm
        (fun x s => {| signature_SignatureAlgorithm := x;
                       signature_Signature := signature_Signature s;
                       signature_Certs := signature_Certs s |});
      field type_BitString "" signature_Signature
        (fun x s => {| signature_SignatureAlgorithm := signature_SignatureAlgorithm s;
                       signature_Signature := x;
                       signature_Certs := signature_Certs s |});
      field (sliceOf (sliceOf type_RawValue false) false) "explicit,tag:0,optional"
        signature_Certs
        (fun x s => {| signature_SignatureAlgorithm := signature_SignatureAlgorithm s;
                       signature_Signature := signature_Signature s;
                       signature_Certs := x |}) ].

Definition type_request : GoType request :=
  structOf {| ReqCert := certID_zero; SingleRequestExtensions := [] |}
    [ field type_certID "" ReqCert
        (fun x s => {| ReqCert := x;
                       SingleRequestExtensions := SingleRequestExtensions s |});
      field (sliceOf type_Extension false) "explicit,tag:0,optional"
        SingleRequestExtensions
        (fun x s => {| ReqCert := ReqCert s; SingleRequestExtensions := x |}) ].

Definition tbsRequest_zero : tbsRequest :=
  {| tbsRequest_Version := 0; RequestorName := []; RequestList := [];
     ExtensionList := [] |}.

Definition type_tbsRequest : GoType tbsRequest :=
  structOf tbsRequest_zero
    [ field type_int "default:0,explicit,tag:0,optional" tbsRequest_Version
        (fun x s => {| tbsRequest_Version := x; RequestorName := RequestorName s;
                       RequestList := RequestList s;
                       ExtensionList := ExtensionList s |});
      field type_RDNSequence "explicit,tag:1,optional" RequestorName
        (fun x s => {| tbsRequest_Version := tbsRequest_Version s;
                       RequestorName := x; RequestList := RequestList s;
                       ExtensionList := ExtensionList s |});
      field (sliceOf type_request false) "" RequestList
        (fun x s => {| tbsRequest_Version := tbsRequest_Version s;
                       RequestorName := RequestorName s; RequestList := x;
                       ExtensionList := ExtensionList s |});
      field (sliceOf type_Extension false) "explicit,tag:2,optional" ExtensionList
        (fun x s => {| tbsRequest_Version := tbsRequest_Version s;
                       RequestorName := RequestorName s;
                       RequestList := RequestList s; ExtensionList := x |}) ].

Definition type_OcspRequest : GoType OcspRequest :=
  structOf {| TBSRequest := tbsRequest_zero; OcspRequest_Signature := signature_zero |}
    [ field type_tbsRequest "" TBSRequest
        (fun x s => {| TBSRequest := x;
                       OcspRequest_Signature := OcspRequest_Signature s |});
      field type_signature "explicit,tag:0,optional" OcspRequest_Signature
        (fun x s => {| TBSRequest := TBSRequest s; OcspRequest_Signature := x |}) ].

(** response.go *)

Definition responseBytes_zero : responseBytes :=
  {| ResponseType := []; Response := None |}.

Definition type_responseBytes : GoType responseBytes :=
  structOf responseBytes_zero
    [ field type_ObjectIdentifier "" ResponseType
        (fun x s => {| ResponseType := x; Response := Response s |});
      field type_bytes "" Response
        (fun x s => {| ResponseType := ResponseType s; Response := x |}) ].

Definition type_OcspResponse : GoType OcspResponse :=
  structOf {| ResponseStatus := 0; ResponseBytes := responseBytes_zero |}
    [ field type_Enumerated "" ResponseStatus
        (fun x s => {| ResponseStatus := x; ResponseBytes := ResponseBytes s |});
      field type_responseBytes "explicit,tag:0,optional" ResponseBytes
        (fun x s => {| ResponseStatus := ResponseStatus s; ResponseBytes := x |}) ].

Definition type_RevokedInfo : GoType RevokedInfo :=
  structOf RevokedInfo_zero
    [ field type_Time "generalized" RevocationTime
        (fun x s => {| RevocationTime := x;
                       RevocationReason := RevocationReason s |});
      field type_Enumerated "explicit,tag:0,optional" RevocationReason
        (fun x s => {| RevocationTime := RevocationTime s;
                       RevocationReason := x |}) ].

Definition type_singleResponse : GoType singleResponse :=
  structOf singleResponse_zero
    [ field type_certID "" CertID set_CertID;
      field type_Flag "tag:0,optional" Good set_Good;
      field type_RevokedInfo "tag:1,optional" Revoked set_Revoked;
      field type_Flag "tag:2,optional" Unknown set_Unknown;
      field type_Time "generalized" ThisUpdate set_ThisUpdate;
      field type_Time "generalized,explicit,tag:0,optional" NextUpdate
        set_NextUpdate;
      field (sliceOf type_Extension false) "explicit,tag:1,optional"
        SingleExtensions set_SingleExtensions ].

Definition responseData_zero : responseData :=
  {| responseData_Version := 0; ResponderID := asn1.RawValue_zero;
     ProducedAt := time.zero; Responses := []; ResponseExtensions := [] |}.

Definition type_responseData : GoType responseData :=
  structOf responseData_zero
    [ field type_int "default:0,explicit,tag:0,optional" responseData_Version
        (fun x s => {| responseData_Version := x; ResponderID := ResponderID s;
                       ProducedAt := ProducedAt s; Responses := Responses s;
                       ResponseExtensions := ResponseExtensions s |});
      field type_RawValue "" ResponderID
        (fun x s => {| responseData_Version := responseData_Version s;
                       ResponderID := x; ProducedAt := ProducedAt s;
                       Responses := Responses s;
                       ResponseExtensions := ResponseExtensions s |});
      field type_Time "generalized" ProducedAt
        (fun x s => {| responseData_Version := responseData_Version s;
                       ResponderID := ResponderID s; ProducedAt := x;
                       Responses := Responses s;
                       ResponseExtensions := ResponseExtensions s |});
      field (sliceOf type_singleResponse false) "" Responses set_Responses;
      field (sliceOf type_Extension false) "explicit,tag:1,optional"
        ResponseExtensions
        (fun x s => {| responseData_Version := responseData_Version s;
                       ResponderID := ResponderID s; ProducedAt := ProducedAt s;
                       Responses := Responses s; ResponseExtensions := x |}) ].

Definition type_BasicResponse : GoType BasicResponse :=
  structOf
    {| TBSResponseData := responseData_zero;
       BasicResponse_SignatureAlgorithm := pkix.AlgorithmIdentifier_zero;
       BasicResponse_Signature := asn1.BitString_zero;
       BasicResponse_Certs := [] |}
    [ field type_responseData "" TBSResponseData set_TBSResponseData;
      field type_AlgorithmIdentifier "" BasicResponse_SignatureAlgorithm
        (fun x s => {| TBSResponseData := TBSResponseData s;
                       BasicResponse_SignatureAlgorithm := x;
                       BasicResponse_Signature := BasicResponse_Signature s;
                       BasicResponse_Certs := BasicResponse_Certs s |});
      field type_BitString "" BasicResponse_Signature
        (fun x s => {| TBSResponseData := TBSResponseData s;
                       BasicResponse_SignatureAlgorithm :=
                         BasicResponse_SignatureAlgorithm s;
                       BasicResponse_Signature := x;
                       BasicResponse_Certs := BasicResponse_Certs s |});
      field (sliceOf type_RawValue false) "explicit,tag:0,optional"
        BasicResponse_Certs
        (fun x s => {| TBSResponseData := TBSResponseData s;
                       BasicResponse_SignatureAlgorithm :=
                         BasicResponse_SignatureAlgorithm s;
                       BasicResponse_Signature := BasicResponse_Signature s;
                       BasicResponse_Certs := x |}) ].

(** The codecs of the three top-level messages. *)

Definition codec_request : asn1.Codec OcspRequest :=
  {| asn1.Marshal := Marshal type_OcspRequest;
     asn1.Unmarshal := Unmarshal type_OcspRequest |}.

Definition codec_response : asn1.Codec OcspResponse :=
  {| asn1.Marshal := Marshal type_OcspResponse;
     asn1.Unmarshal := Unmarshal type_OcspResponse |}.

Definition codec_basic : asn1.Codec BasicResponse :=
  {| asn1.Marshal := Marshal type_BasicResponse;
     asn1.Unmarshal := Unmarshal type_BasicResponse |}.

End wire.
(** ** Sample messages *)

Module Samples.

Import Byte.

(** 2024-01-01 00:00:00 UTC and 2023-06-15 12:30:00 UTC. *)
Definition t2024 : time.Time :=
  {| time.sec := 63839664000; time.nsec := 0; time.loc := None |}.
Definition t2023 : time.Time :=
  {| time.sec := 63822429000; time.nsec := 0; time.loc := None |}.

Definition null : asn1.RawValue :=
  {| asn1.Class := 0; asn1.Tag := 5; asn1.IsCompound := false;
     asn1.Bytes := Some []; asn1.FullBytes := Some [x05; x00] |}.

(** SHA-1, 1.3.14.3.2.26, and sha256WithRSAEncryption. *)
Definition sha1 : pkix.AlgorithmIdentifier :=
  {| pkix.Algorithm := [1; 3; 14; 3; 2; 26]; pkix.Parameters := null |}.
Definition sha256WithRSA : pkix.AlgorithmIdentifier :=
  {| pkix.Algorithm := [1; 2; 840; 113549; 1; 1; 11]; pkix.Parameters := null |}.

Definition cert : certID :=
  {| HashAlgorithm := sha1;
     NameHash := Some [x11; x22; x33; x44];
     IssuerKeyHash := Some [xaa; xbb; xcc; xdd];
     SerialNumber := Some 4660 |}.

Definition revoked2023 : RevokedInfo :=
  {| RevocationTime := t2023; RevocationReason := 1 |}.

Definition entry (good : bool) (revoked : RevokedInfo) (unknown : bool)
    (extensions : list pkix.Extension) : singleResponse :=
  {| CertID := cert; Good := good; Revoked := revoked; Unknown := unknown;
     ThisUpdate := t2024; NextUpdate := time.zero;
     SingleExtensions := extensions |}.

Definition nonce_ext (v : bytes) : pkix.Extension :=
  {| pkix.Id := OidOcspNonce; pkix.Critical := false; pkix.Value := v |}.

(** An extension that is not the nonce: id-pkix-ocsp-nocheck. *)
Definition nocheck_ext : pkix.Extension :=
  {| pkix.Id := [1; 3; 6; 1; 5; 5; 7; 48; 1; 5]; pkix.Critical := false;
     pkix.Value := Some [x05; x00] |}.

(** Responder id byKey, [2] EXPLICIT OCTET STRING. *)
Definition responder : asn1.RawValue :=
  {| asn1.Class := 2; asn1.Tag := 2; asn1.IsCompound := true;
     asn1.Bytes := Some [x04; x02; x01; x02];
     asn1.FullBytes := Some [xa2; x04; x04; x02; x01; x02] |}.

Definition basic (responses : list singleResponse) : BasicResponse :=
  {| TBSResponseData :=
       {| responseData_Version := 0; ResponderID := responder;
          ProducedAt := t2024; Responses := responses;
          ResponseExtensions := [] |};
     BasicResponse_SignatureAlgorithm := sha256WithRSA;
     BasicResponse_Signature :=
       {| asn1.BitString_Bytes := Some [x5a; xa5]; asn1.BitLength := 16 |};
     BasicResponse_Certs := [] |}.

(** One entry per branch of the normalisation: good and unknown; revoked
    and unknown; no status; good alone. *)
Definition four_entries : list singleResponse :=
  [ entry true RevokedInfo_zero true [];
    entry false revoked2023 true [];
    entry false RevokedInfo_zero false [];
    entry true RevokedInfo_zero false [] ].

Definition req (extensions : list pkix.Extension) : OcspRequest :=
  {| TBSRequest :=
       {| tbsRequest_Version := 0; RequestorName := [];
          RequestList := [ {| ReqCert := cert; SingleRequestExtensions := [] |} ];
          ExtensionList := extensions |};
     OcspRequest_Signature :=
       {| signature_SignatureAlgorithm := pkix.AlgorithmIdentifier_zero;
          signature_Signature := asn1.BitString_zero;
          signature_Certs := [] |} |}.

(** A response with one good entry that carries the extensions given. *)
Definition one_entry (extensions : list pkix.Extension) : BasicResponse :=
  basic [entry true RevokedInfo_zero false extensions].

End Samples.

(** * Properties *)

(** ** Slices and methods *)

Lemma slice_at_in_range {A} (s : list A) (i : Z) :
  0 <= i < Z.of_nat (length s) ->
  exists a, s !! Z.to_nat i = Some a /\ slice_at s i = Returns a.
Proof.
  intros Hi. unfold slice_at.
  destruct (Z.ltb_spec i 0); [lia|].
  destruct (Z.leb_spec (Z.of_nat (length s)) i); [lia|]. simpl.
  destruct (lookup_lt_is_Some_2 s (Z.to_nat i)) as [a Ha]; [lia|].
  exists a. by rewrite Ha.
Qed.

Lemma slice_at_lookup {A} (s : list A) (i : Z) (a : A) :
  0 <= i -> s !! Z.to_nat i = Some a -> slice_at s i = Returns a.
Proof.
  intros Hi Ha. pose proof (lookup_lt_Some _ _ _ Ha) as Hlt.
  destruct (slice_at_in_range s i) as (a' & Ha' & ->); [lia|].
  congruence.
Qed.

Lemma slice_at_out_of_range {A} (s : list A) (i : Z) :
  i < 0 \/ Z.of_nat (length s) <= i ->
  slice_at s i = Panics (index_out_of_range i (length s)).
Proof.
  intros Hi. unfold slice_at.
  destruct (Z.ltb_spec i 0); [done|].
  destruct (Z.leb_spec (Z.of_nat (length s)) i); [done|lia].
Qed.

Lemma slice_assign_in_range {A} (s : list A) (i : Z) (a : A) :
  0 <= i < Z.of_nat (length s) ->
  slice_assign s i a = Returns (<[Z.to_nat i := a]> s).
Proof.
  intros Hi. unfold slice_assign.
  destruct (Z.ltb_spec i 0); [lia|].
  by destruct (Z.leb_spec (Z.of_nat (length s)) i); [lia|].
Qed.

Lemma Responses_at_lookup (b : BasicResponse) (i : Z) (sr : singleResponse) :
  0 <= i -> Responses (TBSResponseData b) !! Z.to_nat i = Some sr ->
  Responses_at i b = Returns (sr, b).
Proof.
  intros Hi Hsr. unfold Responses_at. by rewrite (slice_at_lookup _ _ sr).
Qed.

Lemma Responses_at_out_of_range (b : BasicResponse) (i : Z) :
  i < 0 \/ Z.of_nat (length (Responses (TBSResponseData b))) <= i ->
  Responses_at i b =
    Panics (index_out_of_range i (length (Responses (TBSResponseData b)))).
Proof.
  intros Hi. unfold Responses_at. by rewrite slice_at_out_of_range.
Qed.

Lemma Responses_assign_lookup (b : BasicResponse) (i : Z) (sr : singleResponse) f :
  0 <= i -> Responses (TBSResponseData b) !! Z.to_nat i = Some sr ->
  Responses_assign i f b =
    Returns (tt, set_TBSResponseData
                   (set_Responses (<[Z.to_nat i := f sr]> (Responses (TBSResponseData b)))
                      (TBSResponseData b)) b).
Proof.
  intros Hi Hsr. unfold Responses_assign.
  rewrite (slice_at_lookup _ _ sr) by done.
  rewrite slice_assign_in_range; [done|].
  apply lookup_lt_Some in Hsr. lia.
Qed.

Lemma Responses_assign_out_of_range (b : BasicResponse) (i : Z) f :
  i < 0 \/ Z.of_nat (length (Responses (TBSResponseData b))) <= i ->
  Responses_assign i f b =
    Panics (index_out_of_range i (length (Responses (TBSResponseData b)))).
Proof.
  intros Hi. unfold Responses_assign. by rewrite slice_at_out_of_range.
Qed.

Lemma set_Responses_same (b : BasicResponse) :
  set_TBSResponseData (set_Responses (Responses (TBSResponseData b)) (TBSResponseData b)) b = b.
Proof. by destruct b as [[] ? ? ?]. Qed.

Lemma asn1_Equal_eq (oi other : asn1.ObjectIdentifier) :
  asn1.Equal oi other = true <-> oi = other.
Proof.
  revert other. induction oi as [|a oi IH]; intros [|b other]; simpl; try done.
  rewrite andb_true_iff, Z.eqb_eq, IH. split.
  - by intros [-> ->].
  - intros [= -> ->]. done.
Qed.

(** ** The normalisation loop *)

Lemma time_Equal_zero (t : time.Time) : time.Equal t time.zero = time.IsZero t.
Proof. done. Qed.

Lemma IsEmpty_IsZero (ri : RevokedInfo) :
  IsEmpty ri = time.IsZero (RevocationTime ri).
Proof.
  unfold IsEmpty. rewrite time_Equal_zero.
  by destruct (time.IsZero (RevocationTime ri)).
Qed.

Lemma IsEmpty_zero : IsEmpty RevokedInfo_zero = true.
Proof. done. Qed.

Lemma MarshalBasicResponse_fold (pre l : list singleResponse) :
  fold_left MarshalBasicResponse_step (seq (length pre) (length l)) (pre ++ l)
  = pre ++ map normalize l.
Proof.
  revert pre. induction l as [|sr l IH]; intros pre; [done|].
  cbn [length seq fold_left map].
  assert (MarshalBasicResponse_step (pre ++ sr :: l) (length pre)
          = (pre ++ [normalize sr]) ++ l) as ->.
  { unfold MarshalBasicResponse_step, normalize.
    rewrite list_lookup_middle by done.
    destruct (MarshalBasicResponse_case sr) as [s|]; simpl.
    - rewrite insert_app_r_alt, Nat.sub_diag by done. simpl.
      by rewrite <- app_assoc.
    - by rewrite <- app_assoc. }
  specialize (IH (pre ++ [normalize sr])).
  rewrite length_app in IH. simpl in IH.
  rewrite Nat.add_1_r in IH. rewrite IH.
  by rewrite <- app_assoc.
Qed.

Lemma MarshalBasicResponse_range_map (responses : list singleResponse) :
  MarshalBasicResponse_range responses = map normalize responses.
Proof. apply (MarshalBasicResponse_fold [] responses). Qed.

Lemma MarshalBasicResponse_range_lookup (responses : list singleResponse) (i : nat) :
  MarshalBasicResponse_range responses !! i = normalize <$> responses !! i.
Proof. rewrite MarshalBasicResponse_range_map. apply list_lookup_fmap. Qed.

Lemma MarshalResponseFromBasic_range_id responses (b : BasicResponse) :
  MarshalResponseFromBasic_range responses b = b.
Proof.
  unfold MarshalResponseFromBasic_range.
  induction responses as [|sr l IH]; simpl; [done|].
  by destruct (_ && _).
Qed.

(** ** The DER codec reads from the front *)

Lemma parseBase128Int_loop_app bytes s shifted ret64 v rest :
  der.parseBase128Int_loop bytes shifted ret64 = Ok (v, rest) ->
  der.parseBase128Int_loop (bytes ++ s) shifted ret64 = Ok (v, rest ++ s).
Proof.
  revert shifted ret64.
  induction bytes as [|b bytes IH]; intros shifted ret64; simpl; [done|].
  repeat case_match; try done.
  - by intros [= <- <-].
  - apply IH.
Qed.

Lemma parseLength_loop_app numBytes bytes s length v rest :
  der.parseLength_loop numBytes bytes length = Ok (v, rest) ->
  der.parseLength_loop numBytes (bytes ++ s) length = Ok (v, rest ++ s).
Proof.
  revert bytes length.
  induction numBytes as [|n IH]; intros bytes length; simpl.
  - by intros [= <- <-].
  - destruct bytes as [|b bytes]; simpl; [done|].
    repeat case_match; try done. apply IH.
Qed.

Lemma parseTagAndLength_app bytes s t rest :
  der.parseTagAndLength bytes = Ok (t, rest) ->
  der.parseTagAndLength (bytes ++ s) = Ok (t, rest ++ s).
Proof.
  destruct bytes as [|b bytes]; simpl; [done|].
  destruct (Z.land (der.u8 b) 31 =? 31).
  - unfold der.parseBase128Int.
    destruct (der.parseBase128Int_loop bytes 0 0) as [[tag rest1]|] eqn:Hp; [|done].
    rewrite (parseBase128Int_loop_app _ s _ _ _ _ Hp). simpl.
    destruct (tag <? 31); [done|]. simpl.
    destruct rest1 as [|b1 rest1]; simpl; [done|].
    destruct (Z.land (der.u8 b1) 128 =? 0); [by intros [= <- <-]|].
    destruct (Z.land (der.u8 b1) 127 =? 0); [done|].
    destruct (der.parseLength_loop _ rest1 0) as [[len rest2]|] eqn:Hl; [|done].
    rewrite (parseLength_loop_app _ _ s _ _ _ Hl). simpl.
    destruct (len <? 128); [done|]. by intros [= <- <-].
  - simpl.
    destruct bytes as [|b1 rest1]; simpl; [done|].
    destruct (Z.land (der.u8 b1) 128 =? 0); [by intros [= <- <-]|].
    destruct (Z.land (der.u8 b1) 127 =? 0); [done|].
    destruct (der.parseLength_loop _ rest1 0) as [[len rest2]|] eqn:Hl; [|done].
    rewrite (parseLength_loop_app _ _ s _ _ _ Hl). simpl.
    destruct (len <? 128); [done|]. by intros [= <- <-].
Qed.

Lemma der_Unmarshal_app {T} (ty : der.GoType T) (b : bytes) val rest s :
  der.Unmarshal ty b = Ok (val, rest) ->
  der.Unmarshal ty (append b s) = Ok (val, append rest s).
Proof.
  unfold der.Unmarshal, append.
  change (der.parseFieldParameters "") with der.no_parameters.
  generalize (contents b). clear b. intros bytes. simpl contents.
  destruct (der.parseField ty bytes der.no_parameters) as [[v r]|] eqn:Hp; [|done].
  simpl. intros [= <- <-]. simpl.
  enough (der.parseField ty (bytes ++ s) der.no_parameters = Ok (v, r ++ s)) as ->
    by done.
  revert Hp. unfold der.parseField. simpl.
  destruct bytes as [|b0 bytes]; [done|].
  destruct (der.parseTagAndLength (b0 :: bytes)) as [[t rest1]|] eqn:Ht; [|done].
  rewrite (parseTagAndLength_app _ s _ _ Ht).
  cbn [mbind der.result_bind app].
  destruct (der.getUniversalType ty) as [[matchAny universalTag] compoundType].
  match goal with |- context [if ?c then der.StructuralError _ else _] =>
    destruct c end; [done|].
  destruct (Z.ltb_spec (Z.of_nat (length rest1)) (der.length_ t)) as [|Hlen]; [done|].
  assert (Z.to_nat (der.length_ t) <= length rest1)%nat as Hle by lia.
  destruct (Z.ltb_spec (Z.of_nat (length (rest1 ++ s))) (der.length_ t)) as [Hlt|_].
  { rewrite length_app in Hlt. lia. }
  rewrite take_app_le, drop_app_le by done.
  assert (length (b0 :: bytes ++ s) - length (drop (Z.to_nat (der.length_ t)) rest1 ++ s)
          = length (b0 :: bytes) - length (drop (Z.to_nat (der.length_ t)) rest1))%nat
    as -> by (cbn [length]; rewrite !length_app; lia).
  change (b0 :: bytes ++ s) with ((b0 :: bytes) ++ s).
  rewrite take_app_le by lia.
  destruct (der.parseBody ty _ t _ _) as [v'|]; [|done].
  simpl. by intros [= <- <-].
Qed.

Lemma wire_codecs_read_from_front :
  reads_from_front wire.codec_request /\
  reads_from_front wire.codec_response /\
  reads_from_front wire.codec_basic.
Proof. repeat split; intros b val rest s; apply der_Unmarshal_app. Qed.

(** ** The nonce accessors *)

Lemma method_bind_Returns {S A B} (m : method S A) (k : A -> method S B) s a s' :
  m s = Returns (a, s') -> (m ≫= k) s = k a s'.
Proof. unfold mbind, method_bind. by intros ->. Qed.

Lemma method_bind_Panics {S A B} (m : method S A) (k : A -> method S B) s p :
  m s = Panics p -> (m ≫= k) s = Panics p.
Proof. unfold mbind, method_bind. by intros ->. Qed.

Lemma SetNonce_range_existsb nonce extList done :
  SetNonce_range nonce extList done = done || existsb is_nonce extList.
Proof.
  unfold SetNonce_range. revert done.
  induction extList as [|e l IH]; intros done; simpl.
  - by rewrite orb_false_r.
  - rewrite IH. unfold is_nonce. destruct (asn1.Equal _ _), done; done.
Qed.

Lemma range_find_nonce_absent extList :
  existsb is_nonce extList = false -> range_find_nonce extList = None.
Proof.
  induction extList as [|e l IH]; simpl; [done|].
  unfold is_nonce at 1. destruct (asn1.Equal _ _); [done|]. apply IH.
Qed.

Lemma range_find_nonce_first pre e post :
  existsb is_nonce pre = false -> is_nonce e = true ->
  range_find_nonce (pre ++ e :: post) = pkix.Value e.
Proof.
  intros Hpre He. induction pre as [|e' pre IH]; simpl in *.
  - unfold is_nonce in He. by rewrite He.
  - apply orb_false_iff in Hpre as [He' Hpre]. unfold is_nonce in He'.
    rewrite He'. by apply IH.
Qed.

Lemma existsb_is_nonce_false extList :
  existsb is_nonce extList = false <->
  forall e, In e extList -> pkix.Id e <> OidOcspNonce.
Proof.
  unfold is_nonce. induction extList as [|e l IH]; simpl.
  - split; [by intros _ e []|done].
  - rewrite orb_false_iff, IH. split.
    + intros [He Hl] e' [<-|Hin]; [|by apply Hl].
      intros Heq%asn1_Equal_eq. congruence.
    + intros H. split; [|by intros e' Hin; apply H; right].
      destruct (asn1.Equal (pkix.Id e) OidOcspNonce) eqn:Heq; [|done].
      apply asn1_Equal_eq in Heq. by destruct (H e (or_introl eq_refl)).
Qed.

Lemma set_SingleExtensions_same sr : set_SingleExtensions (SingleExtensions sr) sr = sr.
Proof. by destruct sr. Qed.

(** With a nonce extension already in the list, [SetNonce] changes
    nothing: the loop assigns to a copy of the element. *)
Lemma SetNonce_nonce_present (r : BasicResponse) (i : Z) (sr : singleResponse) nonce :
  0 <= i -> Responses (TBSResponseData r) !! Z.to_nat i = Some sr ->
  existsb is_nonce (SingleExtensions sr) = true ->
  SetNonce i nonce r = Returns (tt, r).
Proof.
  intros Hi Hsr Hex. unfold SetNonce.
  rewrite (method_bind_Returns _ _ _ _ _ (Responses_at_lookup r i sr Hi Hsr)).
  rewrite SetNonce_range_existsb, Hex. simpl.
  destruct (SingleExtensions sr) as [|e l] eqn:Hl; [done|]. simpl.
  rewrite (Responses_assign_lookup r i sr) by done.
  rewrite <- Hl, set_SingleExtensions_same, list_insert_id by done.
  by rewrite set_Responses_same.
Qed.

(** Without one, [SetNonce] appends a non-critical nonce extension, and
    [GetNonce] then finds its value. *)
Lemma SetNonce_nonce_absent (r : BasicResponse) (i : Z) (sr : singleResponse) nonce :
  0 <= i -> Responses (TBSResponseData r) !! Z.to_nat i = Some sr ->
  existsb is_nonce (SingleExtensions sr) = false ->
  let nonceExt :=
    {| pkix.Id := OidOcspNonce; pkix.Critical := false; pkix.Value := nonce |} in
  let r' :=
    set_TBSResponseData
      (set_Responses
         (<[Z.to_nat i := set_SingleExtensions (SingleExtensions sr ++ [nonceExt]) sr]>
            (Responses (TBSResponseData r)))
         (TBSResponseData r)) r in
  SetNonce i nonce r = Returns (tt, r') /\ GetNonce i r' = Returns (nonce, r').
Proof.
  intros Hi Hsr Hex nonceExt r'. split.
  - unfold SetNonce.
    rewrite (method_bind_Returns _ _ _ _ _ (Responses_at_lookup r i sr Hi Hsr)).
    rewrite SetNonce_range_existsb, Hex. simpl.
    rewrite (Responses_assign_lookup r i sr) by done.
    by destruct (SingleExtensions sr).
  - unfold GetNonce.
    assert (Responses (TBSResponseData r') !! Z.to_nat i
            = Some (set_SingleExtensions (SingleExtensions sr ++ [nonceExt]) sr)) as Hsr'.
    { simpl. apply list_lookup_insert_eq. by eapply lookup_lt_Some. }
    rewrite (method_bind_Returns _ _ _ _ _ (Responses_at_lookup r' i _ Hi Hsr')).
    change (SingleExtensions (set_SingleExtensions ?l sr)) with l.
    rewrite range_find_nonce_first by done.
    by destruct (SingleExtensions sr).
Qed.

(** ** The status accessor *)

Lemma ClearStatus_lookup (r : BasicResponse) (i : Z) (sr : singleResponse) :
  0 <= i -> Responses (TBSResponseData r) !! Z.to_nat i = Some sr ->
  ClearStatus i r =
    Returns (tt,
      set_TBSResponseData
        (set_Responses
           (<[Z.to_nat i :=
                set_Revoked RevokedInfo_zero (set_Unknown false (set_Good false sr))]>
              (Responses (TBSResponseData r)))
           (TBSResponseData r)) r).
Proof.
  intros Hi Hsr. pose proof (lookup_lt_Some _ _ _ Hsr) as Hlt.
  unfold ClearStatus.
  rewrite (method_bind_Returns _ _ _ _ _ (Responses_assign_lookup r i sr _ Hi Hsr)).
  match goal with |- context [mbind _ _ ?b] => set (b1 := b) end.
  assert (Responses (TBSResponseData b1) !! Z.to_nat i = Some (set_Good false sr)) as H1.
  { simpl. by apply list_lookup_insert_eq. }
  rewrite (method_bind_Returns _ _ _ _ _ (Responses_assign_lookup b1 i _ _ Hi H1)).
  match goal with |- Responses_assign _ _ ?b = _ => set (b2 := b) end.
  assert (Responses (TBSResponseData b2) !! Z.to_nat i
          = Some (set_Unknown false (set_Good false sr))) as H2.
  { simpl. apply list_lookup_insert_eq. by rewrite length_insert. }
  rewrite (Responses_assign_lookup b2 i _ _ Hi H2).
  simpl. by rewrite !list_insert_insert_eq.
Qed.

(** ** Lists left alone by a map *)

(** ** The claims of the specification *)

(** Names the bytes a marshalling call evaluates to. *)
Ltac exists_marshalled :=
  lazymatch goal with
  | |- exists b, ?m = Ok b /\ @?Q b =>
      let r := eval vm_compute in m in
      lazymatch r with
      | Ok ?v => exists v
      end
  end.

(** C2.  The status normalisation done by the loop of [MarshalBasicResponse]
    on the entry [sr] at index [i], in priority order: good and unknown both
    set gives good without unknown, with CertID, ThisUpdate, NextUpdate and
    SingleExtensions kept; otherwise a non-empty revoked-info with unknown set
    keeps the revoked-info and drops unknown; otherwise neither good nor a
    non-empty revoked-info gives unknown, not good, empty revoked-info,
    whatever unknown was; otherwise the entry stays as it is. *)
Theorem normalize_priority_order
    (responses : list singleResponse) (i : nat) (sr : singleResponse) :
  responses !! i = Some sr ->
  MarshalBasicResponse_range responses !! i = Some (normalize sr) /\
  (Good sr = true /\ Unknown sr = true ->
     Good (normalize sr) = true /\ Unknown (normalize sr) = false /\
     CertID (normalize sr) = CertID sr /\
     ThisUpdate (normalize sr) = ThisUpdate sr /\
     NextUpdate (normalize sr) = NextUpdate sr /\
     SingleExtensions (normalize sr) = SingleExtensions sr) /\
  (~ (Good sr = true /\ Unknown sr = true) ->
   IsEmpty (Revoked sr) = false /\ Unknown sr = true ->
     Revoked (normalize sr) = Revoked sr /\ Unknown (normalize sr) = false) /\
  (~ (Good sr = true /\ Unknown sr = true) ->
   ~ (IsEmpty (Revoked sr) = false /\ Unknown sr = true) ->
   Good sr = false /\ IsEmpty (Revoked sr) = true ->
     Unknown (normalize sr) = true /\ Good (normalize sr) = false /\
     IsEmpty (Revoked (normalize sr)) = true) /\
  (~ (Good sr = true /\ Unknown sr = true) ->
   ~ (IsEmpty (Revoked sr) = false /\ Unknown sr = true) ->
   ~ (Good sr = false /\ IsEmpty (Revoked sr) = true) ->
     normalize sr = sr).
Proof.
  intros Hsr. split.
  { by rewrite MarshalBasicResponse_range_lookup, Hsr. }
  unfold normalize, MarshalBasicResponse_case.
  destruct (Good sr), (Unknown sr), (IsEmpty (Revoked sr)); simpl;
    repeat split; intros; try done; intuition congruence.
Qed.

(** C3.  The normalisation is idempotent, on an entry and on a list of
    entries run through the loop of the encode path. *)
Theorem normalize_idempotent
    (sr : singleResponse) (responses : list singleResponse) :
  normalize (normalize sr) = normalize sr /\
  MarshalBasicResponse_range (MarshalBasicResponse_range responses)
  = MarshalBasicResponse_range responses.
Proof.
  assert (forall s, normalize (normalize s) = normalize s) as Hidem.
  { intros s. unfold normalize, MarshalBasicResponse_case.
    destruct (Good s) eqn:HG, (Unknown s) eqn:HU,
      (IsEmpty (Revoked s)) eqn:HE; simpl;
      rewrite ?HG, ?HU, ?HE; simpl; rewrite ?HE; done. }
  split; [done|].
  rewrite !MarshalBasicResponse_range_map, map_map.
  apply map_ext. done.
Qed.

(** C10.  An entry that is good, carries a non-empty revoked-info and is not
    unknown goes through the loop of the encode path unchanged: the value
    handed to [asn1.Marshal] still has both status slots set. *)
Theorem normalize_good_and_revoked_unchanged
    `{asn1.Codec BasicResponse} (b : BasicResponse) (i : nat) (sr : singleResponse) :
  Responses (TBSResponseData b) !! i = Some sr ->
  Good sr = true -> IsEmpty (Revoked sr) = false -> Unknown sr = false ->
  MarshalBasicResponse_case sr = None /\
  normalize sr = sr /\
  Responses (TBSResponseData (MarshalBasicResponse b).2) !! i = Some sr /\
  (MarshalBasicResponse b).1 = asn1.Marshal (MarshalBasicResponse b).2.
Proof.
  intros Hsr HG HE HU.
  assert (MarshalBasicResponse_case sr = None) as Hcase.
  { unfold MarshalBasicResponse_case. by rewrite HG, HE, HU. }
  split; [done|]. split; [by unfold normalize; rewrite Hcase|].
  split; [|done].
  simpl. rewrite MarshalBasicResponse_range_lookup, Hsr. simpl.
  unfold normalize. by rewrite Hcase.
Qed.

Lemma normalize_priority_order_witness :
  (Good (normalize (Samples.entry true RevokedInfo_zero true [])) = true /\
   Unknown (normalize (Samples.entry true RevokedInfo_zero true [])) = false) /\
  (Revoked (normalize (Samples.entry false Samples.revoked2023 true []))
     = Samples.revoked2023 /\
   Unknown (normalize (Samples.entry false Samples.revoked2023 true [])) = false) /\
  (Unknown (normalize (Samples.entry false RevokedInfo_zero false [])) = true /\
   Good (normalize (Samples.entry false RevokedInfo_zero false [])) = false /\
   IsEmpty (Revoked (normalize (Samples.entry false RevokedInfo_zero false []))) = true) /\
  normalize (Samples.entry true RevokedInfo_zero false [])
    = Samples.entry true RevokedInfo_zero false [].
Proof.
  pose proof (normalize_priority_order Samples.four_entries 0 _ eq_refl) as (_ & H0 & _).
  pose proof (normalize_priority_order Samples.four_entries 1 _ eq_refl) as (_ & _ & H1 & _).
  pose proof (normalize_priority_order Samples.four_entries 2 _ eq_refl) as (_ & _ & _ & H2 & _).
  pose proof (normalize_priority_order Samples.four_entries 3 _ eq_refl) as (_ & _ & _ & _ & H3).
  split; [|split; [|split]].
  - destruct H0 as (? & ? & _); [by split|]. by split.
  - apply H1; [|by split]. intros [[=] _].
  - apply H2; [| |by split]; intros [[=] _].
  - apply H3; intros [[=] ?]. done.
Defined.

Lemma normalize_good_and_revoked_unchanged_witness :
  normalize (Samples.entry true Samples.revoked2023 false [])
    = Samples.entry true Samples.revoked2023 false [] /\
  Responses (TBSResponseData
    (@MarshalBasicResponse wire.codec_basic
       (Samples.basic [Samples.entry true Samples.revoked2023 false []])).2) !! 0%nat
    = Some (Samples.entry true Samples.revoked2023 false []) /\
  exists b,
    (@MarshalBasicResponse wire.codec_basic
       (Samples.basic [Samples.entry true Samples.revoked2023 false []])).1 = Ok b /\
    @UnmarshalBasicResponse wire.codec_basic b
      = Ok (Samples.basic [Samples.entry true Samples.revoked2023 false []]).
Proof.
  pose proof (@normalize_good_and_revoked_unchanged wire.codec_basic
    (Samples.basic [Samples.entry true Samples.revoked2023 false []]) 0 _
    eq_refl eq_refl eq_refl eq_refl) as (_ & Hn & Hl & _).
  split; [done|]. split; [done|].
  exists_marshalled. split; by vm_compute.
Defined.

(** C1.  The code at the input the claim fails on: a response whose entry
    has no extensions gets the nonce [01]; a second [SetNonce] with [02]
    returns and leaves the response as it was, so that [GetNonce] still
    returns [01], where the claim says [02].  The list of extensions keeps
    its length, one, as the claim says. *)
Theorem SetNonce_second_value_not_stored :
  let r0 := Samples.basic [Samples.entry true RevokedInfo_zero false []] in
  let r1 :=
    Samples.basic
      [Samples.entry true RevokedInfo_zero false
         [Samples.nonce_ext (Some [Byte.x01])]] in
  SetNonce 0 (Some [Byte.x01]) r0 = Returns (tt, r1) /\
  GetNonce 0 r1 = Returns (Some [Byte.x01], r1) /\
  SetNonce 0 (Some [Byte.x02]) r1 = Returns (tt, r1) /\
  (SetNonce 0 (Some [Byte.x02]);; GetNonce 0) r1 = Returns (Some [Byte.x01], r1).
Proof. repeat split. Qed.

(** C7.  At a valid index, [ClearStatus] returns, leaving the entry with no
    status (not good, not unknown, the zero revoked-info, which is empty)
    and its other fields, the other entries and the other fields of the
    response as they were; the normalisation of the cleared entry is
    unknown. *)
Theorem ClearStatus_resets_only_status (r : BasicResponse) (i : Z) :
  0 <= i < Z.of_nat (length (Responses (TBSResponseData r))) ->
  exists sr,
    Responses (TBSResponseData r) !! Z.to_nat i = Some sr /\
    let cleared :=
      {| CertID := CertID sr; Good := false; Revoked := RevokedInfo_zero;
         Unknown := false; ThisUpdate := ThisUpdate sr;
         NextUpdate := NextUpdate sr; SingleExtensions := SingleExtensions sr |} in
    ClearStatus i r =
      Returns (tt,
        {| TBSResponseData :=
             {| responseData_Version := responseData_Version (TBSResponseData r);
                ResponderID := ResponderID (TBSResponseData r);
                ProducedAt := ProducedAt (TBSResponseData r);
                Responses := <[Z.to_nat i := cleared]> (Responses (TBSResponseData r));
                ResponseExtensions := ResponseExtensions (TBSResponseData r) |};
           BasicResponse_SignatureAlgorithm := BasicResponse_SignatureAlgorithm r;
           BasicResponse_Signature := BasicResponse_Signature r;
           BasicResponse_Certs := BasicResponse_Certs r |}) /\
    IsEmpty (Revoked cleared) = true /\
    (forall j, j <> Z.to_nat i ->
       <[Z.to_nat i := cleared]> (Responses (TBSResponseData r)) !! j
       = Responses (TBSResponseData r) !! j) /\
    MarshalBasicResponse_range
      (<[Z.to_nat i := cleared]> (Responses (TBSResponseData r))) !! Z.to_nat i
      = Some (normalize cleared) /\
    Unknown (normalize cleared) = true.
Proof.
  intros Hi.
  destruct (slice_at_in_range (Responses (TBSResponseData r)) i Hi) as (sr & Hsr & _).
  exists sr. split; [done|]. intros cleared.
  pose proof (lookup_lt_Some _ _ _ Hsr) as Hlt.
  repeat split.
  - rewrite (ClearStatus_lookup r i sr) by (done || lia).
    by destruct r as [[] ? ? ?].
  - intros j Hj. by apply list_lookup_insert_ne.
  - rewrite MarshalBasicResponse_range_lookup.
    by rewrite list_lookup_insert_eq.
Qed.

Lemma ClearStatus_resets_only_status_witness :
  ClearStatus 1 (Samples.basic Samples.four_entries) =
    Returns (tt,
      Samples.basic
        [ Samples.entry true RevokedInfo_zero true [];
          Samples.entry false RevokedInfo_zero false [];
          Samples.entry false RevokedInfo_zero false [];
          Samples.entry true RevokedInfo_zero false [] ]).
Proof.
  destruct (ClearStatus_resets_only_status (Samples.basic Samples.four_entries) 1)
    as (sr & Hsr & Hclear & _); [simpl; lia|].
  injection Hsr as <-. exact Hclear.
Defined.

(** C8.  [Nonce] returns the value of the first top-level extension whose
    object identifier is 1.3.6.1.5.5.7.48.1.2, and nil when the list holds
    no such extension; either way the request is as it was. *)
Theorem Nonce_value_or_nil (r : OcspRequest) :
  OidOcspNonce = [1; 3; 6; 1; 5; 5; 7; 48; 1; 2] /\
  (forall pre e post,
     ExtensionList (TBSRequest r) = pre ++ e :: post ->
     (forall e', In e' pre -> pkix.Id e' <> OidOcspNonce) ->
     pkix.Id e = OidOcspNonce ->
     Nonce r = Returns (pkix.Value e, r)) /\
  ((exists e, In e (ExtensionList (TBSRequest r)) /\ pkix.Id e = OidOcspNonce) ->
   exists e, In e (ExtensionList (TBSRequest r)) /\ pkix.Id e = OidOcspNonce /\
             Nonce r = Returns (pkix.Value e, r)) /\
  ((forall e, In e (ExtensionList (TBSRequest r)) -> pkix.Id e <> OidOcspNonce) ->
   Nonce r = Returns (None, r)).
Proof.
  split; [done|].
  assert (forall pre e post,
     ExtensionList (TBSRequest r) = pre ++ e :: post ->
     (forall e', In e' pre -> pkix.Id e' <> OidOcspNonce) ->
     pkix.Id e = OidOcspNonce ->
     Nonce r = Returns (pkix.Value e, r)) as Hfirst.
  { intros pre e post Hl Hpre He. unfold Nonce.
    rewrite (method_bind_Returns _ _ r r r) by done.
    rewrite Hl, range_find_nonce_first; [done| |].
    - by apply existsb_is_nonce_false.
    - by apply asn1_Equal_eq. }
  split; [done|]. split.
  - intros Hex.
    induction (ExtensionList (TBSRequest r)) as [|e l IH] eqn:Hl in Hfirst, Hex |- *;
      [by destruct Hex as (? & [] & _)|].
    clear IH.
    assert (exists pre e' post, e :: l = pre ++ e' :: post /\
              existsb is_nonce pre = false /\ is_nonce e' = true)
      as (pre & e' & post & Hsplit & Hpre & He').
    { clear Hfirst. revert Hex. generalize (e :: l). clear.
      intros l (e & Hin & He). induction l as [|x l IH]; [done|].
      destruct (is_nonce x) eqn:Hx.
      - by exists [], x, l.
      - destruct Hin as [->|Hin].
        { apply asn1_Equal_eq in He. unfold is_nonce in Hx. congruence. }
        destruct (IH Hin) as (pre & e' & post & -> & Hpre & He').
        exists (x :: pre), e', post. simpl. by rewrite Hx. }
    exists e'. split; [|split].
    + rewrite Hsplit. apply in_elt.
    + by apply asn1_Equal_eq.
    + apply (Hfirst pre e' post); [done| |by apply asn1_Equal_eq].
      by apply existsb_is_nonce_false.
  - intros Hnone. unfold Nonce.
    rewrite (method_bind_Returns _ _ r r r) by done.
    rewrite range_find_nonce_absent; [done|].
    by apply existsb_is_nonce_false.
Qed.

Lemma Nonce_value_or_nil_witness :
  Nonce (Samples.req [Samples.nocheck_ext; Samples.nonce_ext (Some [Byte.x07])])
    = Returns (Some [Byte.x07],
               Samples.req [Samples.nocheck_ext; Samples.nonce_ext (Some [Byte.x07])]) /\
  Nonce (Samples.req [Samples.nocheck_ext])
    = Returns (None, Samples.req [Samples.nocheck_ext]).
Proof.
  split.
  - apply (proj1 (proj2 (Nonce_value_or_nil _))
             [Samples.nocheck_ext] (Samples.nonce_ext (Some [Byte.x07])) []);
      [done| |done].
    intros e' [<-|[]]. done.
  - apply (proj2 (proj2 (proj2 (Nonce_value_or_nil _)))).
    intros e [<-|[]]. done.
Defined.

(** C9.  [SetNonce], [GetNonce] and [ClearStatus] return at every index
    that is a position of [Responses], whatever the response and the nonce
    are, and panic with index out of range at every other index. *)
Theorem accessors_panic_exactly_out_of_range
    (r : BasicResponse) (i : Z) (nonce : bytes) :
  (0 <= i < Z.of_nat (length (Responses (TBSResponseData r))) ->
     (exists r', SetNonce i nonce r = Returns (tt, r')) /\
     (exists v, GetNonce i r = Returns (v, r)) /\
     (exists r', ClearStatus i r = Returns (tt, r'))) /\
  (i < 0 \/ Z.of_nat (length (Responses (TBSResponseData r))) <= i ->
     SetNonce i nonce r =
       Panics (index_out_of_range i (length (Responses (TBSResponseData r)))) /\
     GetNonce i r =
       Panics (index_out_of_range i (length (Responses (TBSResponseData r)))) /\
     ClearStatus i r =
       Panics (index_out_of_range i (length (Responses (TBSResponseData r))))).
Proof.
  split.
  - intros Hi.
    destruct (slice_at_in_range (Responses (TBSResponseData r)) i Hi) as (sr & Hsr & _).
    assert (0 <= i) as Hi0 by lia.
    repeat split.
    + destruct (existsb is_nonce (SingleExtensions sr)) eqn:Hex.
      * eexists. by apply (SetNonce_nonce_present r i sr).
      * eexists. by apply (SetNonce_nonce_absent r i sr).
    + unfold GetNonce.
      rewrite (method_bind_Returns _ _ _ _ _ (Responses_at_lookup r i sr Hi0 Hsr)).
      destruct (_ =? _)%nat; by eexists.
    + rewrite (ClearStatus_lookup r i sr) by done. by eexists.
  - intros Hi. repeat split.
    + unfold SetNonce.
      by rewrite (method_bind_Panics _ _ _ _ (Responses_at_out_of_range r i Hi)).
    + unfold GetNonce.
      by rewrite (method_bind_Panics _ _ _ _ (Responses_at_out_of_range r i Hi)).
    + unfold ClearStatus.
      by rewrite (method_bind_Panics _ _ _ _ (Responses_assign_out_of_range r i _ Hi)).
Qed.

Lemma accessors_panic_exactly_out_of_range_witness :
  (exists r', SetNonce 3 (Some []) (Samples.basic Samples.four_entries)
              = Returns (tt, r')) /\
  SetNonce 4 (Some []) (Samples.basic Samples.four_entries)
    = Panics (index_out_of_range 4 4) /\
  GetNonce (-1) (Samples.basic Samples.four_entries)
    = Panics (index_out_of_range (-1) 4).
Proof.
  split; [|split].
  - apply (proj1 (accessors_panic_exactly_out_of_range
                    (Samples.basic Samples.four_entries) 3 (Some []))).
    simpl. lia.
  - apply (proj2 (accessors_panic_exactly_out_of_range
                    (Samples.basic Samples.four_entries) 4 (Some []))).
    simpl. lia.
  - apply (proj2 (accessors_panic_exactly_out_of_range
                    (Samples.basic Samples.four_entries) (-1) None)).
    simpl. lia.
Defined.


(** Whatever the codec is, decoding what [MarshalBasicResponse] gives cannot
    return the response itself both for a response with an entry without
    status and for the same response with that entry unknown: the two are
    encoded to the same bytes. *)
Lemma BasicResponse_roundtrip_needs_normal_form
    (codec_basic : asn1.Codec BasicResponse) :
  let b := Samples.basic [Samples.entry false RevokedInfo_zero false []] in
  let b' := Samples.basic [Samples.entry false RevokedInfo_zero true []] in
  (MarshalBasicResponse b).1 = (MarshalBasicResponse b').1 /\
  forall bs, (MarshalBasicResponse b).1 = Ok bs ->
    ~ (UnmarshalBasicResponse bs = Ok b /\ UnmarshalBasicResponse bs = Ok b').
Proof.
  split; [done|]. intros bs _ [H1 H2]. rewrite H1 in H2. discriminate H2.
Qed.



(** C5.  When [MarshalResponseFromBasic] returns bytes, it leaves the
    response with every entry normalised and all else as it was, and the
    bytes are the encoding of the envelope with status successful (0),
    response type 1.3.6.1.5.5.7.48.1.1 and, as response, the encoding of the
    normalised response. *)
Theorem MarshalResponseFromBasic_normalizes_and_wraps
    {codec_response : asn1.Codec OcspResponse}
    {codec_basic : asn1.Codec BasicResponse}
    (basicResponse : BasicResponse) (r : bytes) :
  (MarshalResponseFromBasic basicResponse).1 = Ok r ->
  (MarshalResponseFromBasic basicResponse).2 =
    {| TBSResponseData :=
         {| responseData_Version := responseData_Version (TBSResponseData basicResponse);
            ResponderID := ResponderID (TBSResponseData basicResponse);
            ProducedAt := ProducedAt (TBSResponseData basicResponse);
            Responses := map normalize (Responses (TBSResponseData basicResponse));
            ResponseExtensions := ResponseExtensions (TBSResponseData basicResponse) |};
       BasicResponse_SignatureAlgorithm := BasicResponse_SignatureAlgorithm basicResponse;
       BasicResponse_Signature := BasicResponse_Signature basicResponse;
       BasicResponse_Certs := BasicResponse_Certs basicResponse |} /\
  exists b,
    asn1.Marshal (MarshalResponseFromBasic basicResponse).2 = Ok b /\
    asn1.Marshal
      {| ResponseStatus := 0;
         ResponseBytes :=
           {| ResponseType := [1; 3; 6; 1; 5; 5; 7; 48; 1; 1]; Response := b |} |}
    = Ok r.
Proof.
  unfold MarshalResponseFromBasic.
  rewrite MarshalResponseFromBasic_range_id.
  unfold MarshalBasicResponse. rewrite MarshalBasicResponse_range_map.
  destruct (asn1.Marshal (set_TBSResponseData _ _)) as [b|e] eqn:Hb; [|done].
  destruct (asn1.Marshal {| ResponseStatus := 0; ResponseBytes := _ |})
    as [r'|e] eqn:Hr; [|done].
  simpl. intros [= <-]. split.
  - by destruct basicResponse as [[] ? ? ?].
  - by exists b.
Qed.

Lemma MarshalResponseFromBasic_normalizes_and_wraps_witness :
  exists r b,
    (@MarshalResponseFromBasic wire.codec_response wire.codec_basic
       (Samples.basic Samples.four_entries)).1 = Ok r /\
    asn1.Marshal (Codec := wire.codec_basic)
      (Samples.basic (map normalize Samples.four_entries)) = Ok b /\
    asn1.Marshal (Codec := wire.codec_response)
      {| ResponseStatus := 0;
         ResponseBytes :=
           {| ResponseType := [1; 3; 6; 1; 5; 5; 7; 48; 1; 1]; Response := b |} |}
    = Ok r.
Proof.
  assert (exists r,
            (@MarshalResponseFromBasic wire.codec_response wire.codec_basic
               (Samples.basic Samples.four_entries)).1 = Ok r /\ True)
    as (r & Hm & _).
  { exists_marshalled. by vm_compute. }
  destruct (@MarshalResponseFromBasic_normalizes_and_wraps
              wire.codec_response wire.codec_basic
              (Samples.basic Samples.four_entries) r Hm)
    as (Hb' & b & Hb & Hr).
  exists r, b. split; [exact Hm|]. split; [|exact Hr].
  rewrite Hb' in Hb. exact Hb.
Defined.

(** C6.  Whenever [asn1.Unmarshal] leaves bytes over, the three decoders
    return their trailing-data error and no value.  With a decoder that
    reads from the front of its input, it follows that bytes which decode
    are rejected with that error once any non-empty suffix is appended. *)
Theorem trailing_data_rejected
    {codec_request : asn1.Codec OcspRequest}
    {codec_response : asn1.Codec OcspResponse}
    {codec_basic : asn1.Codec BasicResponse} :
  (forall (b : bytes) (req : OcspRequest) (resp : OcspResponse)
          (basic : BasicResponse) (rest : bytes),
     (0 < len_bytes rest)%nat ->
     (asn1.Unmarshal b = Ok (req, rest) ->
      UnmarshalRequest b = Err (errors_New "trailing data in OCSP request")) /\
     (asn1.Unmarshal b = Ok (resp, rest) ->
      UnmarshalResponse b = Err (errors_New "trailing data in OCSP response")) /\
     (asn1.Unmarshal b = Ok (basic, rest) ->
      UnmarshalBasicResponse b
        = Err (errors_New "trailing data in OCSP basic response"))) /\
  (reads_from_front codec_request -> reads_from_front codec_response ->
   reads_from_front codec_basic ->
   forall (b : bytes) (s : list Byte.byte), s <> [] ->
     (forall req, UnmarshalRequest b = Ok req ->
        UnmarshalRequest (append b s)
          = Err (errors_New "trailing data in OCSP request")) /\
     (forall resp, UnmarshalResponse b = Ok resp ->
        UnmarshalResponse (append b s)
          = Err (errors_New "trailing data in OCSP response")) /\
     (forall basic, UnmarshalBasicResponse b = Ok basic ->
        UnmarshalBasicResponse (append b s)
          = Err (errors_New "trailing data in OCSP basic response"))).
Proof.
  assert (forall rest : bytes, (0 < len_bytes rest)%nat ->
            (0 <? len_bytes rest)%nat = true) as Hpos.
  { intros rest H. by apply Nat.ltb_lt. }
  assert (forall (rest : bytes) s, s <> [] ->
            (0 <? len_bytes (append rest s))%nat = true) as Happ.
  { intros rest s Hs. apply Nat.ltb_lt. unfold append. simpl.
    rewrite length_app. destruct s; [done|simpl; lia]. }
  split.
  - intros b req resp basic rest Hrest. repeat split; intros Hu.
    + unfold UnmarshalRequest. by rewrite Hu, Hpos.
    + unfold UnmarshalResponse. by rewrite Hu, Hpos.
    + unfold UnmarshalBasicResponse. by rewrite Hu, Hpos.
  - intros Hreq Hresp Hbasic b s Hs. repeat split.
    + intros req. unfold UnmarshalRequest.
      destruct (asn1.Unmarshal b) as [[v rest]|] eqn:Hu; [|done].
      intros _. by rewrite (Hreq b v rest s Hu), Happ.
    + intros resp. unfold UnmarshalResponse.
      destruct (asn1.Unmarshal b) as [[v rest]|] eqn:Hu; [|done].
      intros _. by rewrite (Hresp b v rest s Hu), Happ.
    + intros basic. unfold UnmarshalBasicResponse.
      destruct (asn1.Unmarshal b) as [[v rest]|] eqn:Hu; [|done].
      intros _. by rewrite (Hbasic b v rest s Hu), Happ.
Qed.

Lemma trailing_data_rejected_witness :
  (exists b,
     @MarshalRequest wire.codec_request
       (Samples.req [Samples.nonce_ext (Some [Byte.x07])]) = Ok b /\
     @UnmarshalRequest wire.codec_request b
       = Ok (Samples.req [Samples.nonce_ext (Some [Byte.x07])]) /\
     @UnmarshalRequest wire.codec_request (append b [Byte.x00])
       = Err (errors_New "trailing data in OCSP request")) /\
  @UnmarshalResponse wire.codec_response
    (Some [Byte.x30; Byte.x03; Byte.x0a; Byte.x01; Byte.x01; Byte.xff; Byte.xff])
  = Err (errors_New "trailing data in OCSP response") /\
  (exists b,
     (@MarshalBasicResponse wire.codec_basic
        (Samples.basic [Samples.entry true RevokedInfo_zero false []])).1 = Ok b /\
     @UnmarshalBasicResponse wire.codec_basic (append b [Byte.x05; Byte.x00])
       = Err (errors_New "trailing data in OCSP basic response")).
Proof.
  destruct wire_codecs_read_from_front as (Hreq & Hresp & Hbasic).
  pose proof (proj2 (@trailing_data_rejected
    wire.codec_request wire.codec_response wire.codec_basic) Hreq Hresp Hbasic)
    as Hsuffix.
  split; [|split].
  - exists_marshalled. split; [by vm_compute|]. split; [by vm_compute|].
    apply (proj1 (Hsuffix _ [Byte.x00] ltac:(discriminate))
             (Samples.req [Samples.nonce_ext (Some [Byte.x07])])).
    by vm_compute.
  - apply (proj1 (proj2 (Hsuffix
             (Some [Byte.x30; Byte.x03; Byte.x0a; Byte.x01; Byte.x01])
             [Byte.xff; Byte.xff] ltac:(discriminate)))
           {| ResponseStatus := 1; ResponseBytes := wire.responseBytes_zero |}).
    by vm_compute.
  - exists_marshalled. split; [by vm_compute|].
    apply (proj2 (proj2 (Hsuffix _ [Byte.x05; Byte.x00] ltac:(discriminate)))
             (Samples.basic [Samples.entry true RevokedInfo_zero false []])).
    by vm_compute.
Defined.

(** ** The end-to-end scenario of the specification *)

(** A response with one good entry, encoded by [MarshalResponseFromBasic]
    and decoded by [UnmarshalResponseToBasic] with the DER codec, comes back
    as it was. *)
Example good_response_end_to_end :
  exists r,
    (@MarshalResponseFromBasic wire.codec_response wire.codec_basic
       (Samples.basic [Samples.entry true RevokedInfo_zero false []])).1 = Ok r /\
    @UnmarshalResponseToBasic wire.codec_response wire.codec_basic r
      = Ok (Samples.basic [Samples.entry true RevokedInfo_zero false []]).
Proof. exists_marshalled. split; by vm_compute. Qed.

(** * Further properties of the package *)

(** ** Lemmas on the accessors and the normalisation *)

Lemma GetNonce_lookup (r : BasicResponse) (i : Z) (sr : singleResponse) :
  0 <= i -> Responses (TBSResponseData r) !! Z.to_nat i = Some sr ->
  GetNonce i r = Returns (range_find_nonce (SingleExtensions sr), r).
Proof.
  intros Hi Hsr. unfold GetNonce.
  rewrite (method_bind_Returns _ _ _ _ _ (Responses_at_lookup r i sr Hi Hsr)).
  by destruct (SingleExtensions sr).
Qed.

Lemma GetNonce_out_of_range (r : BasicResponse) (i : Z) :
  i < 0 \/ Z.of_nat (length (Responses (TBSResponseData r))) <= i ->
  GetNonce i r = Panics (index_out_of_range i (length (Responses (TBSResponseData r)))).
Proof.
  intros Hi. unfold GetNonce.
  by rewrite (method_bind_Panics _ _ _ _ (Responses_at_out_of_range r i Hi)).
Qed.

(** What [SetNonce] leaves at a valid index, in one equation. *)
Lemma SetNonce_lookup (r : BasicResponse) (i : Z) (sr : singleResponse) nonce :
  0 <= i -> Responses (TBSResponseData r) !! Z.to_nat i = Some sr ->
  SetNonce i nonce r =
    Returns (tt,
      set_TBSResponseData
        (set_Responses
           (<[Z.to_nat i :=
                set_SingleExtensions
                  (if existsb is_nonce (SingleExtensions sr)
                   then SingleExtensions sr
                   else SingleExtensions sr
                          ++ [{| pkix.Id := OidOcspNonce; pkix.Critical := false;
                                 pkix.Value := nonce |}])
                  sr]>
              (Responses (TBSResponseData r)))
           (TBSResponseData r)) r).
Proof.
  intros Hi Hsr. destruct (existsb is_nonce (SingleExtensions sr)) eqn:Hex.
  - rewrite (SetNonce_nonce_present r i sr) by done.
    rewrite set_SingleExtensions_same, list_insert_id by done.
    by rewrite set_Responses_same.
  - by destruct (SetNonce_nonce_absent r i sr nonce Hi Hsr Hex) as [-> _].
Qed.

Lemma normalize_normalize (sr : singleResponse) :
  normalize (normalize sr) = normalize sr.
Proof.
  unfold normalize, MarshalBasicResponse_case.
  destruct (Good sr) eqn:HG, (Unknown sr) eqn:HU,
    (IsEmpty (Revoked sr)) eqn:HE; simpl;
    rewrite ?HG, ?HU, ?HE; simpl; rewrite ?HE; done.
Qed.

Lemma MarshalBasicResponse_state {codec_basic : asn1.Codec BasicResponse}
    (b : BasicResponse) :
  (MarshalBasicResponse b).2 =
    set_TBSResponseData
      (set_Responses (map normalize (Responses (TBSResponseData b)))
         (TBSResponseData b)) b.
Proof. simpl. by rewrite MarshalBasicResponse_range_map. Qed.

Lemma MarshalResponseFromBasic_unfold
    {codec_response : asn1.Codec OcspResponse}
    {codec_basic : asn1.Codec BasicResponse} (b : BasicResponse) :
  MarshalResponseFromBasic b =
    match (MarshalBasicResponse b).1 with
    | Err err => (Err err, (MarshalBasicResponse b).2)
    | Ok inner =>
        match asn1.Marshal
                {| ResponseStatus := 0;
                   ResponseBytes := {| ResponseType := OidOcspBasicResponse;
                                       Response := inner |} |} with
        | Err err => (Err err, (MarshalBasicResponse b).2)
        | Ok r => (Ok r, (MarshalBasicResponse b).2)
        end
    end.
Proof.
  unfold MarshalResponseFromBasic.
  rewrite MarshalResponseFromBasic_range_id.
  by destruct (MarshalBasicResponse b) as [[inner|e] b'].
Qed.

Lemma filter_is_nonce_existsb (l : list pkix.Extension) :
  existsb is_nonce l = negb (length (List.filter is_nonce l) =? 0)%nat.
Proof.
  induction l as [|e l IH]; simpl; [done|].
  destruct (is_nonce e); simpl; [done|exact IH].
Qed.

(** ** The nonce of a response entry *)

(** X1.  On an entry whose extensions hold no nonce extension, [SetNonce]
    appends a non-critical nonce extension with the value given, and
    [GetNonce] at the same index then returns that value. *)
Theorem SetNonce_then_GetNonce_without_nonce
    (r : BasicResponse) (i : Z) (sr : singleResponse) (nonce : bytes) :
  0 <= i -> Responses (TBSResponseData r) !! Z.to_nat i = Some sr ->
  (forall e, In e (SingleExtensions sr) -> pkix.Id e <> OidOcspNonce) ->
  exists r' sr',
    SetNonce i nonce r = Returns (tt, r') /\
    Responses (TBSResponseData r') !! Z.to_nat i = Some sr' /\
    SingleExtensions sr' =
      SingleExtensions sr
        ++ [{| pkix.Id := OidOcspNonce; pkix.Critical := false; pkix.Value := nonce |}] /\
    GetNonce i r' = Returns (nonce, r') /\
    (SetNonce i nonce;; GetNonce i) r = Returns (nonce, r').
Proof.
  intros Hi Hsr Hnone. apply existsb_is_nonce_false in Hnone.
  destruct (SetNonce_nonce_absent r i sr nonce Hi Hsr Hnone) as [Hset Hget].
  eexists _, _. split; [exact Hset|]. split.
  { simpl. apply list_lookup_insert_eq. by eapply lookup_lt_Some. }
  split; [done|]. split; [exact Hget|].
  by rewrite (method_bind_Returns _ _ _ _ _ Hset).
Qed.

Lemma SetNonce_then_GetNonce_without_nonce_witness :
  (SetNonce 1 (Some [Byte.x0a; Byte.x0b]);; GetNonce 1)
    (Samples.basic [Samples.entry true RevokedInfo_zero false [];
                    Samples.entry true RevokedInfo_zero false [Samples.nocheck_ext]])
  = Returns (Some [Byte.x0a; Byte.x0b],
      Samples.basic
        [Samples.entry true RevokedInfo_zero false [];
         Samples.entry true RevokedInfo_zero false
           [Samples.nocheck_ext; Samples.nonce_ext (Some [Byte.x0a; Byte.x0b])]]).
Proof.
  destruct (SetNonce_then_GetNonce_without_nonce
              (Samples.basic [Samples.entry true RevokedInfo_zero false [];
                              Samples.entry true RevokedInfo_zero false
                                [Samples.nocheck_ext]])
              1 _ (Some [Byte.x0a; Byte.x0b]) ltac:(lia) eq_refl)
    as (r' & sr' & Hset & _ & _ & _ & Hboth).
  { intros e [<-|[]]. done. }
  injection Hset as <-. exact Hboth.
Defined.

(** X2.  At a valid index [SetNonce] returns, and of the entry at that
    index it changes nothing but the extension list: the old extensions stay
    in place at the head of the list, at most one extension is added, and
    the list then holds one nonce extension if it held none and as many as
    before otherwise.  The list of responses keeps its length, every entry
    keeps its CertID, status slots and update times, and the response keeps
    its version, responder, time of production, signature and certificates.
    Nothing is said of the other extension lists of the response: in Go they
    may share the array that the append writes to. *)
Theorem SetNonce_keeps_fields_and_old_extensions
    (r : BasicResponse) (i : Z) (sr : singleResponse) (nonce : bytes) :
  0 <= i -> Responses (TBSResponseData r) !! Z.to_nat i = Some sr ->
  exists r' sr' added,
    SetNonce i nonce r = Returns (tt, r') /\
    Responses (TBSResponseData r') !! Z.to_nat i = Some sr' /\
    SingleExtensions sr' = SingleExtensions sr ++ added /\
    (length added <= 1)%nat /\
    length (List.filter is_nonce (SingleExtensions sr'))
    = Nat.max 1 (length (List.filter is_nonce (SingleExtensions sr))) /\
    length (Responses (TBSResponseData r')) = length (Responses (TBSResponseData r)) /\
    (forall (j : nat) (srj : singleResponse),
       Responses (TBSResponseData r) !! j = Some srj ->
       exists srj',
         Responses (TBSResponseData r') !! j = Some srj' /\
         CertID srj' = CertID srj /\ Good srj' = Good srj /\
         Revoked srj' = Revoked srj /\ Unknown srj' = Unknown srj /\
         ThisUpdate srj' = ThisUpdate srj /\ NextUpdate srj' = NextUpdate srj) /\
    responseData_Version (TBSResponseData r') = responseData_Version (TBSResponseData r) /\
    ResponderID (TBSResponseData r') = ResponderID (TBSResponseData r) /\
    ProducedAt (TBSResponseData r') = ProducedAt (TBSResponseData r) /\
    BasicResponse_SignatureAlgorithm r' = BasicResponse_SignatureAlgorithm r /\
    BasicResponse_Signature r' = BasicResponse_Signature r /\
    BasicResponse_Certs r' = BasicResponse_Certs r.
Proof.
  intros Hi Hsr. rewrite (SetNonce_lookup r i sr nonce Hi Hsr).
  pose proof (lookup_lt_Some _ _ _ Hsr) as Hlt.
  pose proof (filter_is_nonce_existsb (SingleExtensions sr)) as Hf.
  set (exts := if existsb is_nonce (SingleExtensions sr) then _ else _).
  assert (exists added,
            exts = SingleExtensions sr ++ added /\ (length added <= 1)%nat /\
            length (List.filter is_nonce exts)
            = Nat.max 1 (length (List.filter is_nonce (SingleExtensions sr))))
    as (added & Hexts & Hadded & Hcount).
  { unfold exts. destruct (existsb is_nonce (SingleExtensions sr)) eqn:Hex.
    - exists []. rewrite app_nil_r. repeat split; [simpl; lia|].
      destruct (length (List.filter is_nonce (SingleExtensions sr))); [done|lia].
    - eexists [_]. repeat split; [done|].
      rewrite List.filter_app, length_app. simpl.
      by destruct (length (List.filter is_nonce (SingleExtensions sr))). }
  exists (set_TBSResponseData
            (set_Responses
               (<[Z.to_nat i := set_SingleExtensions exts sr]>
                  (Responses (TBSResponseData r)))
               (TBSResponseData r)) r),
    (set_SingleExtensions exts sr), added.
  split; [done|]. split; [simpl; by apply list_lookup_insert_eq|].
  split; [exact Hexts|]. split; [exact Hadded|]. split; [exact Hcount|].
  split; [simpl; by rewrite length_insert|].
  split; [|by repeat split].
  intros j srj Hsrj. simpl.
  destruct (decide (j = Z.to_nat i)) as [->|Hne].
  - exists (set_SingleExtensions exts sr).
    rewrite list_lookup_insert_eq by done.
    assert (srj = sr) as -> by congruence. by repeat split.
  - exists srj. rewrite list_lookup_insert_ne by done. by repeat split.
Qed.

Lemma SetNonce_keeps_fields_and_old_extensions_witness :
  exists r' sr',
    SetNonce 0 (Some [Byte.x02]) (Samples.one_entry [Samples.nocheck_ext])
      = Returns (tt, r') /\
    Responses (TBSResponseData r') !! 0%nat = Some sr' /\
    exists added,
      SingleExtensions sr' = [Samples.nocheck_ext] ++ added /\
      (length added <= 1)%nat /\
      length (List.filter is_nonce (SingleExtensions sr')) = 1%nat.
Proof.
  destruct (SetNonce_keeps_fields_and_old_extensions
              (Samples.one_entry [Samples.nocheck_ext]) 0
              (Samples.entry true RevokedInfo_zero false [Samples.nocheck_ext])
              (Some [Byte.x02]) ltac:(lia) eq_refl)
    as (r' & sr' & added & Hset & Hsr' & Hexts & Hadded & Hcount & _).
  exists r', sr'. split; [exact Hset|]. split; [exact Hsr'|].
  exists added. split; [exact Hexts|]. split; [exact Hadded|]. exact Hcount.
Defined.

(** X3.  At a valid index [GetNonce] returns the value of the first
    extension of the entry whose object identifier is the nonce's, and nil
    when the entry has no such extension; the response stays as it is. *)
Theorem GetNonce_first_nonce_or_nil
    (r : BasicResponse) (i : Z) (sr : singleResponse) :
  0 <= i -> Responses (TBSResponseData r) !! Z.to_nat i = Some sr ->
  (forall pre e post,
     SingleExtensions sr = pre ++ e :: post ->
     (forall e', In e' pre -> pkix.Id e' <> OidOcspNonce) ->
     pkix.Id e = OidOcspNonce ->
     GetNonce i r = Returns (pkix.Value e, r)) /\
  ((forall e, In e (SingleExtensions sr) -> pkix.Id e <> OidOcspNonce) ->
   GetNonce i r = Returns (None, r)).
Proof.
  intros Hi Hsr. rewrite (GetNonce_lookup r i sr Hi Hsr). split.
  - intros pre e post -> Hpre He.
    rewrite range_find_nonce_first; [done| |by apply asn1_Equal_eq].
    by apply existsb_is_nonce_false.
  - intros Hnone. rewrite range_find_nonce_absent; [done|].
    by apply existsb_is_nonce_false.
Qed.

Lemma GetNonce_first_nonce_or_nil_witness :
  GetNonce 0
    (Samples.one_entry
       [Samples.nocheck_ext; Samples.nonce_ext (Some [Byte.x01]);
        Samples.nonce_ext (Some [Byte.x02])])
  = Returns (Some [Byte.x01],
      Samples.one_entry
        [Samples.nocheck_ext; Samples.nonce_ext (Some [Byte.x01]);
         Samples.nonce_ext (Some [Byte.x02])]) /\
  GetNonce 0 (Samples.one_entry [Samples.nocheck_ext])
  = Returns (None, Samples.one_entry [Samples.nocheck_ext]).
Proof.
  split.
  - apply (proj1 (GetNonce_first_nonce_or_nil
                    (Samples.one_entry
                       [Samples.nocheck_ext; Samples.nonce_ext (Some [Byte.x01]);
                        Samples.nonce_ext (Some [Byte.x02])])
                    0 _ ltac:(lia) eq_refl)
             [Samples.nocheck_ext] (Samples.nonce_ext (Some [Byte.x01]))
             [Samples.nonce_ext (Some [Byte.x02])]); [done| |done].
    intros e' [<-|[]]. done.
  - apply (proj2 (GetNonce_first_nonce_or_nil
                    (Samples.one_entry [Samples.nocheck_ext]) 0 _
                    ltac:(lia) eq_refl)).
    intros e [<-|[]]. done.
Defined.

(** X15.  Once [SetNonce] has been called at an index, a further call at
    that index, with whatever value, leaves the response as it is: the entry
    then has a nonce extension, and the call does not store into it. *)
Theorem SetNonce_again_changes_nothing
    (r : BasicResponse) (i : Z) (nonce nonce' : bytes) :
  0 <= i < Z.of_nat (length (Responses (TBSResponseData r))) ->
  exists r',
    SetNonce i nonce r = Returns (tt, r') /\
    SetNonce i nonce' r' = Returns (tt, r') /\
    (SetNonce i nonce;; SetNonce i nonce') r = SetNonce i nonce r.
Proof.
  intros Hi.
  destruct (slice_at_in_range (Responses (TBSResponseData r)) i Hi) as (sr & Hsr & _).
  pose proof (lookup_lt_Some _ _ _ Hsr) as Hlt.
  assert (0 <= i) as Hi0 by lia.
  pose proof (SetNonce_lookup r i sr nonce Hi0 Hsr) as Hset.
  eexists. split; [exact Hset|].
  match type of Hset with _ = Returns (tt, ?b) => set (r' := b) in * end.
  assert (SetNonce i nonce' r' = Returns (tt, r')) as Hagain.
  { eapply SetNonce_nonce_present; [done| |].
    - simpl. by apply list_lookup_insert_eq.
    - simpl. destruct (existsb is_nonce (SingleExtensions sr)) eqn:Hex; [done|].
      rewrite existsb_app, Hex. reflexivity. }
  split; [exact Hagain|].
  by rewrite (method_bind_Returns _ _ _ _ _ Hset), Hagain.
Qed.

Lemma SetNonce_again_changes_nothing_witness :
  (SetNonce 0 (Some [Byte.x01]);; SetNonce 0 (Some [Byte.x02]))
    (Samples.one_entry [Samples.nocheck_ext])
  = Returns (tt,
      Samples.one_entry [Samples.nocheck_ext; Samples.nonce_ext (Some [Byte.x01])]).
Proof.
  destruct (SetNonce_again_changes_nothing
              (Samples.one_entry [Samples.nocheck_ext]) 0
              (Some [Byte.x01]) (Some [Byte.x02]))
    as (r' & Hset & _ & Hboth); [simpl; lia|].
  rewrite Hboth. reflexivity.
Defined.

(** ** The status of a response entry *)

Lemma GetNonce_insert_same_extensions
    (r r' : BasicResponse) (i : nat) (sr sr' : singleResponse) :
  Responses (TBSResponseData r) !! i = Some sr ->
  Responses (TBSResponseData r') = <[i := sr']> (Responses (TBSResponseData r)) ->
  SingleExtensions sr' = SingleExtensions sr ->
  forall j,
    GetNonce j r' =
      match GetNonce j r with
      | Returns (v, _) => Returns (v, r')
      | Panics p => Panics p
      end.
Proof.
  intros Hsr Hrs Hext j.
  destruct (Z.lt_ge_cases j 0) as [Hneg|Hpos].
  { rewrite !GetNonce_out_of_range by lia. by rewrite Hrs, length_insert. }
  destruct (Z.lt_ge_cases j (Z.of_nat (length (Responses (TBSResponseData r)))))
    as [Hlt|Hge].
  - destruct (lookup_lt_is_Some_2 (Responses (TBSResponseData r)) (Z.to_nat j))
      as [srj Hsrj]; [lia|].
    rewrite (GetNonce_lookup r j srj) by done.
    destruct (decide (Z.to_nat j = i)) as [<-|Hne].
    + rewrite (GetNonce_lookup r' j sr'); [|done|].
      * rewrite Hext. congruence.
      * rewrite Hrs. apply list_lookup_insert_eq. by eapply lookup_lt_Some.
    + rewrite (GetNonce_lookup r' j srj); [done|done|].
      rewrite Hrs. by rewrite list_lookup_insert_ne.
  - rewrite !GetNonce_out_of_range by (rewrite ?Hrs, ?length_insert; lia).
    by rewrite Hrs, length_insert.
Qed.

(** X4.  At a valid index [ClearStatus] is idempotent, and it leaves every
    nonce alone: after it [GetNonce] returns at every index what it
    returned before, and panics where it panicked. *)
Theorem ClearStatus_idempotent_keeps_nonce (r : BasicResponse) (i : Z) :
  0 <= i < Z.of_nat (length (Responses (TBSResponseData r))) ->
  exists r',
    ClearStatus i r = Returns (tt, r') /\
    ClearStatus i r' = Returns (tt, r') /\
    (ClearStatus i;; ClearStatus i) r = ClearStatus i r /\
    forall j,
      GetNonce j r' =
        match GetNonce j r with
        | Returns (v, _) => Returns (v, r')
        | Panics p => Panics p
        end.
Proof.
  intros Hi.
  destruct (slice_at_in_range (Responses (TBSResponseData r)) i Hi) as (sr & Hsr & _).
  pose proof (lookup_lt_Some _ _ _ Hsr) as Hlt.
  assert (0 <= i) as Hi0 by lia.
  pose proof (ClearStatus_lookup r i sr Hi0 Hsr) as Hclear.
  eexists. split; [exact Hclear|].
  match type of Hclear with _ = Returns (tt, ?b) => set (r' := b) in * end.
  assert (ClearStatus i r' = Returns (tt, r')) as Hagain.
  { rewrite (ClearStatus_lookup r' i
               (set_Revoked RevokedInfo_zero (set_Unknown false (set_Good false sr))))
      by (done || (simpl; by apply list_lookup_insert_eq)).
    unfold r'. simpl. by rewrite list_insert_insert_eq. }
  split; [exact Hagain|]. split.
  - by rewrite (method_bind_Returns _ _ _ _ _ Hclear), Hclear.
  - by apply (GetNonce_insert_same_extensions r r' (Z.to_nat i) sr
                (set_Revoked RevokedInfo_zero (set_Unknown false (set_Good false sr)))).
Qed.

Lemma ClearStatus_idempotent_keeps_nonce_witness :
  exists r',
    ClearStatus 0 (Samples.basic
                     [Samples.entry false Samples.revoked2023 true
                        [Samples.nonce_ext (Some [Byte.x01])]])
      = Returns (tt, r') /\
    ClearStatus 0 r' = Returns (tt, r') /\
    GetNonce 0 r' = Returns (Some [Byte.x01], r').
Proof.
  destruct (ClearStatus_idempotent_keeps_nonce
              (Samples.basic
                 [Samples.entry false Samples.revoked2023 true
                    [Samples.nonce_ext (Some [Byte.x01])]]) 0)
    as (r' & Hclear & Hagain & _ & Hnonce); [simpl; lia|].
  exists r'. split; [exact Hclear|]. split; [exact Hagain|].
  exact (Hnonce 0).
Defined.

(** X5.  At valid indices [ClearStatus] and [SetNonce] commute: the two
    orders leave the same response, whether or not the indices differ. *)
Theorem ClearStatus_SetNonce_commute
    (r : BasicResponse) (i j : Z) (nonce : bytes) :
  0 <= i < Z.of_nat (length (Responses (TBSResponseData r))) ->
  0 <= j < Z.of_nat (length (Responses (TBSResponseData r))) ->
  (ClearStatus i;; SetNonce j nonce) r = (SetNonce j nonce;; ClearStatus i) r /\
  exists r', (ClearStatus i;; SetNonce j nonce) r = Returns (tt, r').
Proof.
  intros Hi Hj.
  destruct (slice_at_in_range (Responses (TBSResponseData r)) i Hi) as (sri & Hsri & _).
  destruct (slice_at_in_range (Responses (TBSResponseData r)) j Hj) as (srj & Hsrj & _).
  pose proof (lookup_lt_Some _ _ _ Hsri) as Hlti.
  pose proof (lookup_lt_Some _ _ _ Hsrj) as Hltj.
  assert (0 <= i) as Hi0 by lia. assert (0 <= j) as Hj0 by lia.
  rewrite (method_bind_Returns _ _ _ _ _ (ClearStatus_lookup r i sri Hi0 Hsri)).
  rewrite (method_bind_Returns _ _ _ _ _ (SetNonce_lookup r j srj nonce Hj0 Hsrj)).
  destruct (decide (i = j)) as [<-|Hne].
  - assert (srj = sri) as -> by congruence.
    erewrite SetNonce_lookup;
      [|done|simpl; by apply list_lookup_insert_eq].
    erewrite ClearStatus_lookup;
      [|done|simpl; by apply list_lookup_insert_eq].
    simpl. rewrite !list_insert_insert_eq. split; [done|by eexists].
  - assert (Z.to_nat i <> Z.to_nat j) as Hnat by lia.
    erewrite SetNonce_lookup;
      [|done|simpl; by rewrite list_lookup_insert_ne].
    erewrite ClearStatus_lookup;
      [|done|simpl; by rewrite list_lookup_insert_ne].
    simpl. rewrite (list_insert_insert_ne _ (Z.to_nat j) (Z.to_nat i)) by done.
    split; [done|by eexists].
Qed.

Lemma ClearStatus_SetNonce_commute_witness :
  (ClearStatus 1;; SetNonce 1 (Some [Byte.x09])) (Samples.basic Samples.four_entries)
  = (SetNonce 1 (Some [Byte.x09]);; ClearStatus 1) (Samples.basic Samples.four_entries) /\
  (ClearStatus 0;; SetNonce 3 None) (Samples.basic Samples.four_entries)
  = (SetNonce 3 None;; ClearStatus 0) (Samples.basic Samples.four_entries).
Proof.
  split.
  - apply (ClearStatus_SetNonce_commute (Samples.basic Samples.four_entries) 1 1);
      simpl; lia.
  - apply (ClearStatus_SetNonce_commute (Samples.basic Samples.four_entries) 0 3);
      simpl; lia.
Defined.

(** ** The normalisation on the encode path *)

Lemma normalize_keeps (sr : singleResponse) :
  CertID (normalize sr) = CertID sr /\ Good (normalize sr) = Good sr /\
  ThisUpdate (normalize sr) = ThisUpdate sr /\
  NextUpdate (normalize sr) = NextUpdate sr /\
  SingleExtensions (normalize sr) = SingleExtensions sr.
Proof.
  unfold normalize, MarshalBasicResponse_case.
  destruct (Good sr) eqn:HG, (Unknown sr), (IsEmpty (Revoked sr)); simpl;
    rewrite ?HG; repeat split; done.
Qed.

Lemma normalize_Unknown (sr : singleResponse) :
  Unknown (normalize sr)
  = negb (Good (normalize sr)) && IsEmpty (Revoked (normalize sr)).
Proof.
  unfold normalize, MarshalBasicResponse_case.
  destruct (Good sr) eqn:HG, (Unknown sr) eqn:HU,
    (IsEmpty (Revoked sr)) eqn:HE; simpl; rewrite ?HG, ?HU, ?HE; done.
Qed.

Lemma normalize_Revoked (sr : singleResponse) :
  Revoked (normalize sr)
  = if (Good sr && Unknown sr) || (negb (Good sr) && IsEmpty (Revoked sr))
    then RevokedInfo_zero else Revoked sr.
Proof.
  unfold normalize, MarshalBasicResponse_case.
  by destruct (Good sr), (Unknown sr), (IsEmpty (Revoked sr)).
Qed.

(** X6.  Whatever statuses the entries had, and whether or not the encoding
    then succeeds, [MarshalBasicResponse] leaves every entry with unknown
    set exactly when it is neither good nor carries a non-empty
    revoked-info: no entry is left without a status, and unknown is never
    left beside another status. *)
Theorem MarshalBasicResponse_leaves_consistent_unknown
    {codec_basic : asn1.Codec BasicResponse} (b : BasicResponse) :
  Forall
    (fun sr =>
       Unknown sr = negb (Good sr) && IsEmpty (Revoked sr) /\
       (Good sr = true \/ IsEmpty (Revoked sr) = false \/ Unknown sr = true) /\
       ~ (Unknown sr = true /\ Good sr = true) /\
       ~ (Unknown sr = true /\ IsEmpty (Revoked sr) = false))
    (Responses (TBSResponseData (MarshalBasicResponse b).2)).
Proof.
  rewrite MarshalBasicResponse_state. simpl.
  apply List.Forall_forall. intros sr' Hin.
  apply in_map_iff in Hin as (sr & <- & _).
  pose proof (normalize_Unknown sr) as HU.
  destruct (Good (normalize sr)), (IsEmpty (Revoked (normalize sr)));
    rewrite HU; simpl; repeat split; auto; intros [? ?]; done.
Qed.

(** X7.  [MarshalBasicResponse] changes nothing but status slots: the fields
    of the response other than [Responses] stay, the list keeps its length,
    and every entry keeps its CertID, its good marker, ThisUpdate,
    NextUpdate and SingleExtensions. *)
Theorem MarshalBasicResponse_keeps_all_but_status
    {codec_basic : asn1.Codec BasicResponse} (b : BasicResponse) :
  responseData_Version (TBSResponseData (MarshalBasicResponse b).2)
    = responseData_Version (TBSResponseData b) /\
  ResponderID (TBSResponseData (MarshalBasicResponse b).2)
    = ResponderID (TBSResponseData b) /\
  ProducedAt (TBSResponseData (MarshalBasicResponse b).2)
    = ProducedAt (TBSResponseData b) /\
  ResponseExtensions (TBSResponseData (MarshalBasicResponse b).2)
    = ResponseExtensions (TBSResponseData b) /\
  BasicResponse_SignatureAlgorithm (MarshalBasicResponse b).2
    = BasicResponse_SignatureAlgorithm b /\
  BasicResponse_Signature (MarshalBasicResponse b).2 = BasicResponse_Signature b /\
  BasicResponse_Certs (MarshalBasicResponse b).2 = BasicResponse_Certs b /\
  length (Responses (TBSResponseData (MarshalBasicResponse b).2))
    = length (Responses (TBSResponseData b)) /\
  forall (i : nat) (sr : singleResponse),
    Responses (TBSResponseData b) !! i = Some sr ->
    exists sr',
      Responses (TBSResponseData (MarshalBasicResponse b).2) !! i = Some sr' /\
      CertID sr' = CertID sr /\ Good sr' = Good sr /\
      ThisUpdate sr' = ThisUpdate sr /\ NextUpdate sr' = NextUpdate sr /\
      SingleExtensions sr' = SingleExtensions sr.
Proof.
  rewrite MarshalBasicResponse_state. simpl.
  repeat split; [by rewrite length_map|].
  intros i sr Hsr. exists (normalize sr). split.
  - by rewrite list_lookup_fmap, Hsr.
  - apply normalize_keeps.
Qed.

Lemma MarshalBasicResponse_keeps_all_but_status_witness :
  exists sr',
    Responses (TBSResponseData
      (@MarshalBasicResponse wire.codec_basic (Samples.basic Samples.four_entries)).2)
      !! 1%nat = Some sr' /\
    CertID sr' = Samples.cert /\ Good sr' = false /\
    ThisUpdate sr' = Samples.t2024 /\ NextUpdate sr' = time.zero /\
    SingleExtensions sr' = [].
Proof.
  apply (proj2 (proj2 (proj2 (proj2 (proj2 (proj2 (proj2 (proj2
           (@MarshalBasicResponse_keeps_all_but_status wire.codec_basic
              (Samples.basic Samples.four_entries)))))))))
           1%nat (Samples.entry false Samples.revoked2023 true [])).
  reflexivity.
Defined.

(** X8.  What the normalisation does to the revoked-info of an entry: when
    good and unknown are both set it is dropped, even a non-empty one; when
    the entry is not good and its revoked-info is empty it becomes the zero
    value, so that a reason code kept beside a zero revocation time is lost;
    in every other case it stays. *)
Theorem MarshalBasicResponse_revoked_info
    (responses : list singleResponse) (i : nat) (sr : singleResponse) :
  responses !! i = Some sr ->
  exists sr',
    MarshalBasicResponse_range responses !! i = Some sr' /\
    (Good sr = true /\ Unknown sr = true -> Revoked sr' = RevokedInfo_zero) /\
    (Good sr = false /\ IsEmpty (Revoked sr) = true -> Revoked sr' = RevokedInfo_zero) /\
    (~ (Good sr = true /\ Unknown sr = true) ->
     ~ (Good sr = false /\ IsEmpty (Revoked sr) = true) ->
     Revoked sr' = Revoked sr).
Proof.
  intros Hsr. exists (normalize sr). split.
  { by rewrite MarshalBasicResponse_range_lookup, Hsr. }
  rewrite normalize_Revoked.
  destruct (Good sr), (Unknown sr), (IsEmpty (Revoked sr)); simpl;
    repeat split; intros; try done; intuition congruence.
Qed.

Lemma MarshalBasicResponse_revoked_info_witness :
  MarshalBasicResponse_range
    [Samples.entry true Samples.revoked2023 true [];
     Samples.entry false {| RevocationTime := time.zero; RevocationReason := 4 |} false []]
  = [Samples.entry true RevokedInfo_zero false [];
     Samples.entry false RevokedInfo_zero true []].
Proof.
  destruct (MarshalBasicResponse_revoked_info
              [Samples.entry true Samples.revoked2023 true [];
               Samples.entry false
                 {| RevocationTime := time.zero; RevocationReason := 4 |} false []]
              0 _ eq_refl) as (sr0 & _ & H0 & _).
  destruct (MarshalBasicResponse_revoked_info
              [Samples.entry true Samples.revoked2023 true [];
               Samples.entry false
                 {| RevocationTime := time.zero; RevocationReason := 4 |} false []]
              1 _ eq_refl) as (sr1 & _ & _ & H1 & _).
  specialize (H0 (conj eq_refl eq_refl)). specialize (H1 (conj eq_refl eq_refl)).
  reflexivity.
Defined.

(** X9.  Encoding again what an encoding left gives the same result and
    leaves the same response, for [MarshalBasicResponse] and for
    [MarshalResponseFromBasic]: the mutation of the first call is all there
    is. *)
Theorem encoding_again_changes_nothing
    {codec_response : asn1.Codec OcspResponse}
    {codec_basic : asn1.Codec BasicResponse} (b : BasicResponse) :
  MarshalBasicResponse (MarshalBasicResponse b).2 = MarshalBasicResponse b /\
  MarshalResponseFromBasic (MarshalResponseFromBasic b).2
  = MarshalResponseFromBasic b /\
  MarshalBasicResponse (MarshalResponseFromBasic b).2 = MarshalBasicResponse b.
Proof.
  assert (MarshalBasicResponse (MarshalBasicResponse b).2 = MarshalBasicResponse b)
    as Hagain.
  { unfold MarshalBasicResponse. simpl.
    rewrite !MarshalBasicResponse_range_map, map_map.
    by rewrite (map_ext _ _ normalize_normalize). }
  assert ((MarshalResponseFromBasic b).2 = (MarshalBasicResponse b).2) as Hstate.
  { rewrite MarshalResponseFromBasic_unfold.
    destruct (MarshalBasicResponse b).1; [|done]. by destruct (asn1.Marshal _). }
  split; [exact Hagain|]. split.
  - rewrite Hstate, (MarshalResponseFromBasic_unfold (MarshalBasicResponse b).2).
    by rewrite Hagain, <- MarshalResponseFromBasic_unfold.
  - by rewrite Hstate.
Qed.

(** X10.  [MarshalResponseFromBasic] leaves the response as
    [MarshalBasicResponse] does, also when it fails; it fails with the error
    of [MarshalBasicResponse] when that fails, and with the error of the
    encoding of the envelope when that fails. *)
Theorem MarshalResponseFromBasic_errors
    {codec_response : asn1.Codec OcspResponse}
    {codec_basic : asn1.Codec BasicResponse} (b : BasicResponse) :
  (MarshalResponseFromBasic b).2 = (MarshalBasicResponse b).2 /\
  (forall err, (MarshalBasicResponse b).1 = Err err ->
     (MarshalResponseFromBasic b).1 = Err err) /\
  (forall inner err,
     (MarshalBasicResponse b).1 = Ok inner ->
     asn1.Marshal
       {| ResponseStatus := 0;
          ResponseBytes := {| ResponseType := OidOcspBasicResponse;
                              Response := inner |} |} = Err err ->
     (MarshalResponseFromBasic b).1 = Err err).
Proof.
  rewrite MarshalResponseFromBasic_unfold. repeat split.
  - destruct (MarshalBasicResponse b).1; [|done]. by destruct (asn1.Marshal _).
  - by intros err ->.
  - by intros inner err -> ->.
Qed.

Lemma MarshalResponseFromBasic_errors_witness :
  (@MarshalResponseFromBasic wire.codec_response wire.codec_basic
     (Samples.basic
        [{| CertID := certID_zero; Good := false; Revoked := RevokedInfo_zero;
            Unknown := false; ThisUpdate := Samples.t2024;
            NextUpdate := time.zero; SingleExtensions := [] |}])).1
  = Err (asn1_error "asn1: structure error: invalid object identifier").
Proof.
  apply (proj1 (proj2 (@MarshalResponseFromBasic_errors
                         wire.codec_response wire.codec_basic _))).
  by vm_compute.
Defined.

(** X11.  Encoding leaves every nonce alone: after [MarshalBasicResponse],
    and after [MarshalResponseFromBasic], [GetNonce] returns at every index
    what it returned before, and panics where it panicked. *)
Theorem encoding_keeps_nonce
    {codec_response : asn1.Codec OcspResponse}
    {codec_basic : asn1.Codec BasicResponse} (b : BasicResponse) (j : Z) :
  GetNonce j (MarshalBasicResponse b).2 =
    match GetNonce j b with
    | Returns (v, _) => Returns (v, (MarshalBasicResponse b).2)
    | Panics p => Panics p
    end /\
  GetNonce j (MarshalResponseFromBasic b).2 =
    match GetNonce j b with
    | Returns (v, _) => Returns (v, (MarshalResponseFromBasic b).2)
    | Panics p => Panics p
    end.
Proof.
  assert ((MarshalResponseFromBasic b).2 = (MarshalBasicResponse b).2) as ->.
  { rewrite MarshalResponseFromBasic_unfold.
    destruct (MarshalBasicResponse b).1; [|done]. by destruct (asn1.Marshal _). }
  enough (GetNonce j (MarshalBasicResponse b).2 =
            match GetNonce j b with
            | Returns (v, _) => Returns (v, (MarshalBasicResponse b).2)
            | Panics p => Panics p
            end) by done.
  assert (Responses (TBSResponseData (MarshalBasicResponse b).2)
          = map normalize (Responses (TBSResponseData b))) as Hrs.
  { by rewrite MarshalBasicResponse_state. }
  generalize dependent (MarshalBasicResponse b).2. intros b' Hrs.
  destruct (Z.lt_ge_cases j 0) as [Hneg|Hpos].
  { rewrite !GetNonce_out_of_range by lia. by rewrite Hrs, length_map. }
  destruct (Z.lt_ge_cases j (Z.of_nat (length (Responses (TBSResponseData b)))))
    as [Hlt|Hge].
  - destruct (lookup_lt_is_Some_2 (Responses (TBSResponseData b)) (Z.to_nat j))
      as [sr Hsr]; [lia|].
    rewrite (GetNonce_lookup b j sr) by done.
    rewrite (GetNonce_lookup b' j (normalize sr)); [|done|].
    + by destruct (normalize_keeps sr) as (_ & _ & _ & _ & ->).
    + rewrite Hrs. change (map normalize ?l) with (normalize <$> l).
      by rewrite list_lookup_fmap, Hsr.
  - rewrite !GetNonce_out_of_range by (rewrite ?Hrs, ?length_map; lia).
    by rewrite Hrs, length_map.
Qed.

(** ** Decoding a response down to the basic response *)

(** X12.  [UnmarshalResponseToBasic] is [UnmarshalResponse] followed by
    [UnmarshalBasicResponse] on the response bytes of the envelope: an error
    of the first is returned as it is, the status and the response type of
    the envelope are not looked at, and the second check of the bytes left
    over after the envelope never fires. *)
Theorem UnmarshalResponseToBasic_composes
    {codec_response : asn1.Codec OcspResponse}
    {codec_basic : asn1.Codec BasicResponse} (response : bytes) :
  UnmarshalResponseToBasic response =
    match UnmarshalResponse response with
    | Err err => Err err
    | Ok ocspResponse =>
        UnmarshalBasicResponse (Response (ResponseBytes ocspResponse))
    end.
Proof.
  unfold UnmarshalResponseToBasic, UnmarshalResponse.
  destruct (asn1.Unmarshal response) as [[ocspResponse rest]|err]; [|done].
  destruct (0 <? len_bytes rest)%nat eqn:Hrest; [done|].
  by destruct (UnmarshalBasicResponse _).
Qed.

(** X13.  The errors of [UnmarshalResponseToBasic]: bytes left over after
    the envelope give the trailing-data error of the response, whatever the
    envelope holds; bytes left over after the basic response inside give the
    trailing-data error of the basic response; an error of [asn1.Unmarshal]
    on the response bytes of the envelope is returned as it is. *)
Theorem UnmarshalResponseToBasic_errors
    {codec_response : asn1.Codec OcspResponse}
    {codec_basic : asn1.Codec BasicResponse}
    (response : bytes) (ocspResponse : OcspResponse) (rest : bytes) :
  asn1.Unmarshal response = Ok (ocspResponse, rest) ->
  ((0 < len_bytes rest)%nat ->
   UnmarshalResponseToBasic response
     = Err (errors_New "trailing data in OCSP response")) /\
  (len_bytes rest = 0%nat ->
   (forall (basic : BasicResponse) (rest' : bytes),
      asn1.Unmarshal (Response (ResponseBytes ocspResponse)) = Ok (basic, rest') ->
      (0 < len_bytes rest')%nat ->
      UnmarshalResponseToBasic response
        = Err (errors_New "trailing data in OCSP basic response")) /\
   (forall (basic : BasicResponse) (rest' : bytes),
      asn1.Unmarshal (Response (ResponseBytes ocspResponse)) = Ok (basic, rest') ->
      len_bytes rest' = 0%nat ->
      UnmarshalResponseToBasic response = Ok basic) /\
   (forall err,
      asn1.Unmarshal (Response (ResponseBytes ocspResponse))
        = (Err err : result (BasicResponse * bytes)) ->
      UnmarshalResponseToBasic response = Err err)).
Proof.
  intros Hu. rewrite UnmarshalResponseToBasic_composes.
  unfold UnmarshalResponse, UnmarshalBasicResponse. rewrite Hu. split.
  - intros Hrest. apply Nat.ltb_lt in Hrest. by rewrite Hrest.
  - intros ->. simpl. repeat split.
    + intros basic rest' -> Hrest'. apply Nat.ltb_lt in Hrest'. by rewrite Hrest'.
    + by intros basic rest' -> ->.
    + by intros err ->.
Qed.

Lemma UnmarshalResponseToBasic_errors_witness :
  @UnmarshalResponseToBasic wire.codec_response wire.codec_basic
    (Some [Byte.x30; Byte.x03; Byte.x0a; Byte.x01; Byte.x06; Byte.x00])
  = Err (errors_New "trailing data in OCSP response") /\
  @UnmarshalResponseToBasic wire.codec_response wire.codec_basic
    (Some [Byte.x30; Byte.x03; Byte.x0a; Byte.x01; Byte.x06])
  = Err (asn1_error "asn1: syntax error: sequence truncated").
Proof.
  split.
  - apply (proj1 (@UnmarshalResponseToBasic_errors
             wire.codec_response wire.codec_basic
             (Some [Byte.x30; Byte.x03; Byte.x0a; Byte.x01; Byte.x06; Byte.x00])
             {| ResponseStatus := 6; ResponseBytes := wire.responseBytes_zero |}
             (Some [Byte.x00]) ltac:(by vm_compute))).
    simpl. lia.
  - apply (proj2 (@UnmarshalResponseToBasic_errors
             wire.codec_response wire.codec_basic
             (Some [Byte.x30; Byte.x03; Byte.x0a; Byte.x01; Byte.x06])
             {| ResponseStatus := 6; ResponseBytes := wire.responseBytes_zero |}
             (Some []) ltac:(by vm_compute)) eq_refl).
    by vm_compute.
Defined.

(** X14.  From [MarshalResponseFromBasic] to [UnmarshalResponseToBasic] and
    back: when [asn1.Unmarshal] returns what [asn1.Marshal] was given with no
    bytes left over, for the normalised response and for the envelope around
    its encoding, decoding the bytes of [MarshalResponseFromBasic] returns
    the response as the encoding left it, every entry normalised. *)
Theorem MarshalResponseFromBasic_then_UnmarshalResponseToBasic
    {codec_response : asn1.Codec OcspResponse}
    {codec_basic : asn1.Codec BasicResponse}
    (b : BasicResponse) (inner r rest rest' : bytes) :
  asn1.Marshal (MarshalBasicResponse b).2 = Ok inner ->
  asn1.Marshal
    {| ResponseStatus := 0;
       ResponseBytes := {| ResponseType := OidOcspBasicResponse;
                           Response := inner |} |} = Ok r ->
  asn1.Unmarshal r =
    Ok ({| ResponseStatus := 0;
           ResponseBytes := {| ResponseType := OidOcspBasicResponse;
                               Response := inner |} |}, rest) ->
  len_bytes rest = 0%nat ->
  asn1.Unmarshal inner = Ok ((MarshalBasicResponse b).2, rest') ->
  len_bytes rest' = 0%nat ->
  (MarshalResponseFromBasic b).1 = Ok r /\
  UnmarshalResponseToBasic r = Ok (MarshalResponseFromBasic b).2 /\
  Responses (TBSResponseData (MarshalResponseFromBasic b).2)
    = map normalize (Responses (TBSResponseData b)).
Proof.
  intros Hinner Hr Hur Hrest Hui Hrest'.
  assert ((MarshalBasicResponse b).1 = Ok inner) as Hm by exact Hinner.
  rewrite MarshalResponseFromBasic_unfold, Hm, Hr. simpl fst. simpl snd.
  split; [done|]. split.
  - rewrite UnmarshalResponseToBasic_composes.
    unfold UnmarshalResponse, UnmarshalBasicResponse.
    rewrite Hur, Hrest. simpl. by rewrite Hui, Hrest'.
  - apply MarshalBasicResponse_range_map.
Qed.

Lemma MarshalResponseFromBasic_then_UnmarshalResponseToBasic_witness :
  exists r,
    (@MarshalResponseFromBasic wire.codec_response wire.codec_basic
       (Samples.basic Samples.four_entries)).1 = Ok r /\
    @UnmarshalResponseToBasic wire.codec_response wire.codec_basic r
      = Ok (Samples.basic (map normalize Samples.four_entries)).
Proof.
  let inner := eval vm_compute in
    (asn1.Marshal (Codec := wire.codec_basic)
       (@MarshalBasicResponse wire.codec_basic
          (Samples.basic Samples.four_entries)).2) in
  lazymatch inner with
  | Ok ?inner =>
      let r := eval vm_compute in
        (asn1.Marshal (Codec := wire.codec_response)
           {| ResponseStatus := 0;
              ResponseBytes := {| ResponseType := OidOcspBasicResponse;
                                  Response := inner |} |}) in
      lazymatch r with
      | Ok ?r =>
          destruct (@MarshalResponseFromBasic_then_UnmarshalResponseToBasic
                      wire.codec_response wire.codec_basic
                      (Samples.basic Samples.four_entries)
                      inner r (Some []) (Some [])
                      ltac:(by vm_compute) ltac:(by vm_compute)
                      ltac:(by vm_compute) eq_refl
                      ltac:(by vm_compute) eq_refl)
            as (Hm & Hu & _);
          exists r
      end
  end.
  split; [exact Hm|]. rewrite Hu. by vm_compute.
Defined.
